(** * bib2dblp: reconciling a BibTeX file against DBLP

    A shallow embedding of [src/bib2dblp.py].  The two functions of the
    script, [search_dblp_entry] and [update_bib_file], are written in a small
    state-and-exception monad.  Everything the script does to the outside
    (HTTP requests, [print], [logging], [time.sleep], file writes) is
    recorded, in order, in the [trace] of the [World]; what the outside
    answers (the network, the BibTeX parser, the input file) is a section
    variable, so every theorem holds for every network and every parser. *)

From stdpp Require Import gmap strings list pretty.
From Stdlib Require Import ZArith Lia Ascii.

Local Open Scope Z_scope.

(** ** Python values *)

(** A raised Python exception: its class and [str(e)].  Only subclasses of
    [Exception] are modelled (these are what [except Exception] catches). *)
Inductive Exn : Type :=
| PyExn (cls : string) (msg : string).

Definition exn_str (e : Exn) : string :=
  match e with PyExn _ msg => msg end.

(** A decoded JSON document, as [resp.json()] returns it.  An object is
    the list of its bindings; the first binding of a name is the one a
    lookup sees.  [JNum n] is the number [n]; a number with a fraction is
    not zero and goes the way of any non-zero [JNum]. *)
#[warnings="-register-all"]
Inductive JSON : Type :=
| JNull
| JBool (b : bool)
| JNum (n : Z)
| JStr (s : string)
| JArr (items : list JSON)
| JObj (fields : list (string * JSON)).

(** A BibTeX entry as bibtexparser hands it out: a [dict] from field name
    to field value, the citation key under ["ID"]. *)
Abbreviation Entry := (gmap string string).

Definition str_empty (s : string) : bool :=
  match s with EmptyString => true | String _ _ => false end.

(** [bool(v)] for a JSON value. *)
Definition truthy (v : JSON) : bool :=
  match v with
  | JNull => false
  | JBool b => b
  | JNum n => negb (n =? 0)
  | JStr s => negb (str_empty s)
  | JArr items => match items with [] => false | _ :: _ => true end
  | JObj fields => match fields with [] => false | _ :: _ => true end
  end.

(** [bool(s)] for a string, and for the [Optional[str]] that
    [search_dblp_entry] and [dict.get] return. *)
Definition truthy_str (s : string) : bool := negb (str_empty s).

Definition truthy_opt (o : option string) : bool :=
  match o with None => false | Some s => truthy_str s end.

(** [s.replace(c, "")] for a one-character [c].  The characters removed in
    the script are ASCII braces, which never occur inside a multi-byte
    UTF-8 sequence, so filtering bytes agrees with filtering code points. *)
Fixpoint str_remove (c : ascii) (s : string) : string :=
  match s with
  | EmptyString => EmptyString
  | String a rest =>
      if Ascii.eqb a c then str_remove c rest else String a (str_remove c rest)
  end.

Fixpoint assoc (k : string) (fields : list (string * JSON)) : option JSON :=
  match fields with
  | [] => None
  | (k', v) :: rest => if String.eqb k k' then Some v else assoc k rest
  end.

Definition type_name (v : JSON) : string :=
  match v with
  | JNull => "NoneType"
  | JBool _ => "bool"
  | JNum _ => "int"
  | JStr _ => "str"
  | JArr _ => "list"
  | JObj _ => "dict"
  end.

Definition AttributeError (v : JSON) (attr : string) : Exn :=
  PyExn "AttributeError"
    ("'" +:+ type_name v +:+ "' object has no attribute '" +:+ attr +:+ "'").

Definition TypeError (msg : string) : Exn := PyExn "TypeError" msg.
Definition KeyError (k : string) : Exn := PyExn "KeyError" k.
Definition IndexError (msg : string) : Exn := PyExn "IndexError" msg.
Definition ValueError (msg : string) : Exn := PyExn "ValueError" msg.

(** [d.get(k, dflt)]: only a dict has the method. *)
Definition py_get (d : JSON) (k : string) (dflt : JSON) : Exn + JSON :=
  match d with
  | JObj fields => inr (default dflt (assoc k fields))
  | _ => inl (AttributeError d "get")
  end.

(** [v[0]]. *)
Definition py_item0 (v : JSON) : Exn + JSON :=
  match v with
  | JArr (x :: _) => inr x
  | JArr [] => inl (IndexError "list index out of range")
  | JStr (String a _) => inr (JStr (String a EmptyString))
  | JStr EmptyString => inl (IndexError "string index out of range")
  | JObj _ => inl (KeyError "0")
  | _ => inl (TypeError ("'" +:+ type_name v +:+ "' object is not subscriptable"))
  end.

(** [v[k]] for a string [k]. *)
Definition py_item (v : JSON) (k : string) : Exn + JSON :=
  match v with
  | JObj fields =>
      match assoc k fields with
      | Some x => inr x
      | None => inl (KeyError ("'" +:+ k +:+ "'"))
      end
  | JStr _ => inl (TypeError "string indices must be integers")
  | JArr _ => inl (TypeError "list indices must be integers or slices, not str")
  | _ => inl (TypeError ("'" +:+ type_name v +:+ "' object is not subscriptable"))
  end.

(** [v + suffix] for a string [suffix]: defined on strings only. *)
Definition py_add_str (v : JSON) (suffix : string) : Exn + string :=
  match v with
  | JStr s => inr (s +:+ suffix)
  | _ => inl (TypeError ("unsupported operand type(s) for +: '" +:+ type_name v
                         +:+ "' and 'str'"))
  end.

(** Line 28: [data.get("result", {}).get("hits", {}).get("hit", [])]. *)
Definition extract_hits (data : JSON) : Exn + JSON :=
  match py_get data "result" (JObj []) with
  | inl e => inl e
  | inr result =>
      match py_get result "hits" (JObj []) with
      | inl e => inl e
      | inr hits => py_get hits "hit" (JArr [])
      end
  end.

(** ** The outside world *)

Inductive Level : Type := INFO | WARNING | ERROR.

(** One observable action of the script: a call it makes itself.  (What
    a library does on its own account, such as a record that bibtexparser
    sends to the root logger, is no call of the script and is not an
    event.)  [EvOpen] is a successful [open(path, "w")], which creates or
    empties the file; [EvDump] and [EvWrite] are what is then written. *)
Inductive Event : Type :=
| EvGet (url : string) (params : list (string * string))
| EvPrint (msg : string)
| EvLog (lvl : Level) (msg : string)
| EvSleep (secs : Z)
| EvOpen (path : string)
| EvDump (path : string) (entries : list Entry)
| EvWrite (path : string) (content : string).

(** [requests_made] counts the HTTP requests issued so far; [trace] lists
    every action taken so far, the most recent first. *)
Record World : Type := mkWorld {
  requests_made : nat;
  trace : list Event
}.

Record Response : Type := mkResponse {
  status_code : Z;
  json : Exn + JSON;      (* what [resp.json()] returns or raises *)
  text : string
}.

(** What [requests.get] does: raise, or return a response. *)
Inductive Reply : Type :=
| Fails (e : Exn)
| Responds (r : Response).

(** ** The monad: state plus exceptions *)

Inductive Outcome (A : Type) : Type :=
| Return (a : A)
| Raise (e : Exn)
| OutOfFuel.

Arguments Return {A} a.
Arguments Raise {A} e.
Arguments OutOfFuel {A}.

Definition M (S A : Type) : Type := S -> Outcome A * S.

Definition ret {S A} (a : A) : M S A := fun s => (Return a, s).

Definition raise {S A} (e : Exn) : M S A := fun s => (Raise e, s).

Definition bind {S A B} (m : M S A) (k : A -> M S B) : M S B :=
  fun s =>
    match m s with
    | (Return a, s') => k a s'
    | (Raise e, s') => (Raise e, s')
    | (OutOfFuel, s') => (OutOfFuel, s')
    end.

(** [try: body / except Exception as e: handler e]. *)
Definition try_except {S A} (body : M S A) (handler : Exn -> M S A) : M S A :=
  fun s =>
    match body s with
    | (Raise e, s') => handler e s'
    | r => r
    end.

Definition lift_sum {S A} (r : Exn + A) : M S A :=
  match r with inl e => raise e | inr a => ret a end.

Declare Scope py_scope.
Delimit Scope py_scope with py.
Notation "x <- c ;; k" := (bind c (fun x => k))
  (at level 100, c at next level, right associativity) : py_scope.
Notation "c ;;; k" := (bind c (fun _ => k))
  (at level 100, right associativity) : py_scope.
Local Open Scope py_scope.

(** ** World operations *)

Definition emit (ev : Event) : M World unit :=
  fun w => (Return tt, mkWorld (requests_made w) (ev :: trace w)).

Definition print (msg : string) : M World unit := emit (EvPrint msg).

Definition logging (lvl : Level) (msg : string) : M World unit :=
  emit (EvLog lvl msg).

(** [time.sleep(secs)] raises [ValueError] on a negative length. *)
Definition time_sleep (secs : Z) : M World unit :=
  if secs <? 0 then raise (ValueError "sleep length must be non-negative")
  else emit (EvSleep secs).

(** The files opened for writing so far. *)
Definition is_open (ev : Event) : bool :=
  match ev with EvOpen _ => true | _ => false end.

Definition opens_made (w : World) : nat :=
  length (List.filter is_open (trace w)).

(** The locals of [search_dblp_entry] that change, next to the world. *)
Record Frame : Type := mkFrame {
  attempt : Z;
  world : World
}.

Definition on_world {A} (m : M World A) : M Frame A :=
  fun f => let (r, w) := m (world f) in (r, mkFrame (attempt f) w).

Definition get_attempt : M Frame Z := fun f => (Return (attempt f), f).

(** [attempt += 1] *)
Definition incr_attempt : M Frame unit :=
  fun f => (Return tt, mkFrame (attempt f + 1) (world f)).

(** How the [try] block of one loop iteration ends when it does not raise. *)
Inductive Control : Type :=
| CReturn (v : option string)     (* [return v] *)
| CContinue                       (* [continue] *)
| CFallThrough.                   (* the end of the block is reached *)

Definition search_url : string := "https://dblp.org/search/publ/api".

(** The f-strings of the script. *)
Definition msg_failed (attempt : Z) (key title : string) : string :=
  "Attempt " +:+ pretty (attempt + 1) +:+ ": Failed to search DBLP for key: "
  +:+ key +:+ ", title: " +:+ title.

Definition msg_no_results (key title : string) : string :=
  "No results found on DBLP for key: " +:+ key +:+ ", title: " +:+ title.

Definition msg_error (attempt : Z) (key title : string) (e : Exn) : string :=
  "Attempt " +:+ pretty (attempt + 1) +:+ ": Error occurred while searching for key: "
  +:+ key +:+ ", title: " +:+ title +:+ " - " +:+ exn_str e.

Definition msg_all_failed (max_retries : Z) (key title : string) : string :=
  "All " +:+ pretty max_retries +:+ " attempts failed for key: " +:+ key
  +:+ ", title: " +:+ title.

Section Script.

(** [net i url params] is what the [i]-th HTTP request of the run gets when
    it is [requests.get(url, params=params)]. *)
Variable net : nat -> string -> list (string * string) -> Reply.

(** [bibtexparser.loads]: the parsed entries, or the exception it raises
    (a fresh parser is built by every call, so it is a function of its
    argument). *)
Variable loads : string -> Exn + list Entry.

(** Opening the input file and [bibtexparser.load] with the customised
    parser. *)
Variable load_file : string -> Exn + list Entry.

(** [open_write i path] is the exception that the [i]-th [open(path, "w")]
    of the run raises, if it raises. *)
Variable open_write : nat -> string -> option Exn.

(** The exception that [bibtexparser.dump] raises on these entries, if it
    raises (it serialises all of them before it writes). *)
Variable dump_raises : list Entry -> option Exn.

Definition requests_get (url : string) (params : list (string * string))
  : M World Response :=
  fun w =>
    let w' := mkWorld (S (requests_made w)) (EvGet url params :: trace w) in
    match net (requests_made w) url params with
    | Fails e => (Raise e, w')
    | Responds r => (Return r, w')
    end.

Section Search.

Variables (title key : string) (max_retries delay : Z).

Definition params : list (string * string) := [("q", title); ("format", "json")].

(** Lines 18-40: the body of the [try]. *)
Definition try_block : M Frame Control :=
  resp <- on_world (requests_get search_url params) ;;
  if negb (status_code resp =? 200) then
    attempt <- get_attempt ;;
    let msg := msg_failed attempt key title in
    on_world (print msg) ;;;
    on_world (logging WARNING msg) ;;;
    incr_attempt ;;;
    on_world (time_sleep delay) ;;;
    ret CContinue
  else
    data <- lift_sum (json resp) ;;
    hits <- lift_sum (extract_hits data) ;;
    if negb (truthy hits) then
      let msg := msg_no_results key title in
      on_world (print msg) ;;;
      on_world (logging INFO msg) ;;;
      ret (CReturn None)
    else
      hit0 <- lift_sum (py_item0 hits) ;;
      info <- lift_sum (py_item hit0 "info") ;;
      dblp_url <- lift_sum (py_get info "url" JNull) ;;
      if truthy dblp_url then
        bibtex_url <- lift_sum (py_add_str dblp_url ".bib") ;;
        bibtex_resp <- on_world (requests_get bibtex_url []) ;;
        if status_code bibtex_resp =? 200 then
          ret (CReturn (Some (text bibtex_resp)))
        else ret CFallThrough
      else ret CFallThrough.

(** Lines 41-44: the [except] clause. *)
Definition except_block (e : Exn) : M Frame Control :=
  attempt <- get_attempt ;;
  let msg := msg_error attempt key title e in
  on_world (print msg) ;;;
  on_world (logging ERROR msg) ;;;
  ret CFallThrough.

(** Lines 17-44: the [try] statement of one loop iteration. *)
Definition iteration : M Frame Control := try_except try_block except_block.

(** Lines 49-52: after the loop. *)
Definition all_failed : M Frame (option string) :=
  let msg := msg_all_failed max_retries key title in
  on_world (print msg) ;;;
  on_world (logging ERROR msg) ;;;
  ret None.

(** Lines 16-52: [while attempt < max_retries: ...], then the final error.
    [fuel] bounds the number of iterations. *)
Fixpoint while_loop (fuel : nat) : M Frame (option string) :=
  fun f =>
    if attempt f <? max_retries then
      match fuel with
      | O => (OutOfFuel, f)
      | S fuel' =>
          (ctl <- iteration ;;
           match ctl with
           | CReturn v => ret v
           | CContinue => while_loop fuel'
           | CFallThrough =>
               incr_attempt ;;;
               on_world (time_sleep delay) ;;;
               while_loop fuel'
           end) f
      end
    else all_failed f.

(** [search_dblp_entry(title, key, max_retries, delay)].  Every iteration
    that comes back to the loop head has incremented [attempt], so
    [max_retries] iterations are enough. *)
Definition search_dblp_entry : M World (option string) :=
  fun w =>
    let (r, f) := while_loop (Z.to_nat max_retries) (mkFrame 0 w) in
    (r, world f).

End Search.

(** ** The reconciler *)

Definition msg_searching (key title : string) : string :=
  "Searching DBLP for key: " +:+ key +:+ ", title: " +:+ title.

Definition msg_no_parsed (key title : string) : string :=
  "No parsed BibTeX found for key: " +:+ key +:+ ", title: " +:+ title.

Definition msg_keeping (key title : string) : string :=
  "Keeping original entry for key: " +:+ key +:+ ", title: " +:+ title.

(** Line 65: [entry.get("title", "").replace("{", "").replace("}", "")]. *)
Definition entry_title (entry : Entry) : string :=
  str_remove "}" (str_remove "{" (default EmptyString (entry !! "title"))).

(** The two accumulators of the loop: [updated_entries], [failed_keys]. *)
Definition Acc : Type := list Entry * list string.

(** Lines 73-90: what becomes of [entry] once the search has answered
    [new_bibtex]. *)
Definition merge (entry : Entry) (original_key title : string) (acc : Acc)
    (new_bibtex : option string) : M World Acc :=
  let '(updated_entries, failed_keys) := acc in
  if truthy_opt new_bibtex then
    new_db <- lift_sum (loads (default EmptyString new_bibtex)) ;;
    match new_db with
    | new_entry :: _ =>
        ret (updated_entries ++ [<["ID" := original_key]> new_entry],
             failed_keys)
    | [] =>
        let msg := msg_no_parsed original_key title in
        print msg ;;;
        logging WARNING msg ;;;
        ret (updated_entries ++ [entry], failed_keys ++ [original_key])
    end
  else
    let msg := msg_keeping original_key title in
    print msg ;;;
    logging INFO msg ;;;
    ret (updated_entries ++ [entry], failed_keys ++ [original_key]).

(** Lines 65-91: one iteration of [for entry in bib_database.entries].
    The calls of [search_dblp_entry] take its defaults, [max_retries=5] and
    [delay=2]. *)
Definition loop_body (entry : Entry) (acc : Acc) : M World Acc :=
  let title := entry_title entry in
  match entry !! "ID" with
  | None => ret acc                                       (* [not None] *)
  | Some original_key =>
      if negb (truthy_str title) || negb (truthy_str original_key) then
        ret acc                                           (* [continue] *)
      else
        let msg := msg_searching original_key title in
        print msg ;;;
        logging INFO msg ;;;
        new_bibtex <- search_dblp_entry title original_key 5 2 ;;
        acc' <- merge entry original_key title acc new_bibtex ;;
        time_sleep 1 ;;;
        ret acc'
  end.

(** Lines 61-91: the whole [for] loop. *)
Fixpoint for_entries (entries : list Entry) (acc : Acc) : M World Acc :=
  match entries with
  | [] => ret acc
  | entry :: rest => acc' <- loop_body entry acc ;; for_entries rest acc'
  end.

Definition newline : string := String (ascii_of_nat 10) EmptyString.

(** Lines 101-102: the lines written to [failed_keys.txt]. *)
Fixpoint failed_lines (keys : list string) : string :=
  match keys with
  | [] => EmptyString
  | key :: rest => (key +:+ newline) +:+ failed_lines rest
  end.

(** [open(path, "w")] *)
Definition open_w (path : string) : M World unit :=
  fun w =>
    match open_write (opens_made w) path with
    | Some e => (Raise e, w)
    | None => emit (EvOpen path) w
    end.

(** [bibtexparser.dump(db, bibfile)] into the open file at [path]. *)
Definition dump (path : string) (entries : list Entry) : M World unit :=
  match dump_raises entries with
  | Some e => raise e
  | None => emit (EvDump path entries)
  end.

(** Lines 93-102: the two files.  Once a file is open, writing the text to
    it is taken to succeed. *)
Definition write_results (output_file : string) (res : Acc) : M World unit :=
  let '(updated_entries, failed_keys) := res in
  open_w output_file ;;;
  dump output_file updated_entries ;;;
  match failed_keys with
  | [] => ret tt
  | _ :: _ =>
      open_w "failed_keys.txt" ;;;
      emit (EvWrite "failed_keys.txt" (failed_lines failed_keys))
  end.

(** [update_bib_file(input_file, output_file)] *)
Definition update_bib_file (input_file output_file : string) : M World unit :=
  entries <- lift_sum (load_file input_file) ;;
  res <- for_entries entries ([], []) ;;
  write_results output_file res.

(** Lines 105-110: the script run as a program. *)
Definition main : M World unit :=
  let input_bib := "custom_old.bib" in
  let output_bib := "custom_updated.bib" in
  update_bib_file input_bib output_bib ;;;
  print "更新完成！" ;;;
  logging INFO "BibTeX 更新完成".

End Script.

Arguments params title /.
Arguments msg_failed : simpl never.
Arguments msg_no_results : simpl never.
Arguments msg_error : simpl never.
Arguments msg_all_failed : simpl never.
Arguments msg_searching : simpl never.
Arguments msg_no_parsed : simpl never.
Arguments msg_keeping : simpl never.

(** ** Vocabulary of the properties *)

(** What a run adds to the world: [n] more requests, and the events [evs]
    (given oldest first). *)
Definition after (w : World) (n : nat) (evs : list Event) : World :=
  mkWorld (requests_made w + n) (rev evs ++ trace w).

(** The events of a search attempt that is answered with a status other
    than 200. *)
Definition refused_attempt (title key : string) (delay : Z) (a : Z) : list Event :=
  [EvGet search_url (params title);
   EvPrint (msg_failed a key title);
   EvLog WARNING (msg_failed a key title);
   EvSleep delay].

Fixpoint refused_attempts (title key : string) (delay : Z) (n : nat) (a : Z)
  : list Event :=
  match n with
  | O => []
  | S n' =>
      refused_attempt title key delay a
      ++ refused_attempts title key delay n' (a + 1)
  end.

(** The events of lines 49-51. *)
Definition giving_up (title key : string) (max_retries : Z) : list Event :=
  [EvPrint (msg_all_failed max_retries key title);
   EvLog ERROR (msg_all_failed max_retries key title)].

(** An entry is processed when it has a title (once the braces are
    stripped) and a citation key. *)
Definition valid (entry : Entry) : bool :=
  truthy_str (entry_title entry) && truthy_opt (entry !! "ID").

Definition entry_key (entry : Entry) : string :=
  default EmptyString (entry !! "ID").

(** What happened to a processed entry. *)
Inductive Merge : Type :=
| Kept
| Replaced (new_entry : Entry).

Definition merged (entry : Entry) (m : Merge) : Entry :=
  match m with
  | Kept => entry
  | Replaced new_entry => <["ID" := entry_key entry]> new_entry
  end.

Definition failure_of (entry : Entry) (m : Merge) : list string :=
  match m with
  | Kept => [entry_key entry]
  | Replaced _ => []
  end.

Definition outputs (sources : list Entry) (ms : list Merge) : list Entry :=
  zip_with merged sources ms.

Definition failures (sources : list Entry) (ms : list Merge) : list string :=
  concat (zip_with failure_of sources ms).

(** A replacement is the first entry of a fetched, non-empty record. *)
Definition fetched (loads : string -> Exn + list Entry) (m : Merge) : Prop :=
  match m with
  | Kept => True
  | Replaced new_entry =>
      exists raw rest, truthy_str raw = true /\ loads raw = inr (new_entry :: rest)
  end.

(** The world once the start-of-search message is out. *)
Definition announced (entry : Entry) (w : World) : World :=
  after w 0 [EvPrint (msg_searching (entry_key entry) (entry_title entry));
             EvLog INFO (msg_searching (entry_key entry) (entry_title entry))].

(** An output entry stands for a source entry when it is that entry, or
    the first entry of a fetched record in which the key was overwritten
    with the source entry's. *)
Definition stands_for (loads : string -> Exn + list Entry) (src o : Entry) : Prop :=
  o = src
  \/ exists new_entry,
      fetched loads (Replaced new_entry)
      /\ o = <["ID" := entry_key src]> new_entry.

(** The failure-list property as the specification words it: the key of a
    processed entry is in the failure list exactly when the output entry
    equals the source entry. *)
Definition failure_iff_identical
    (net : nat -> string -> list (string * string) -> Reply)
    (loads : string -> Exn + list Entry) (es : list Entry) (w : World) : Prop :=
  forall out fk w',
    for_entries net loads es ([], []) w = (Return (out, fk), w') ->
    forall i src o,
      List.filter valid es !! i = Some src ->
      out !! i = Some o ->
      (entry_key src ∈ fk <-> o = src).

(** Exception containment as the specification words it: whatever happens
    to a single entry, the run goes on to its end. *)
Definition never_aborts
    (net : nat -> string -> list (string * string) -> Reply)
    (loads : string -> Exn + list Entry) (es : list Entry) (w : World) : Prop :=
  exists out fk w', for_entries net loads es ([], []) w = (Return (out, fk), w').

(** The requests among some events, and the file writes in a world. *)
Definition is_get (ev : Event) : bool :=
  match ev with EvGet _ _ => true | _ => false end.

Definition count_gets (evs : list Event) : nat :=
  length (List.filter is_get evs).

Definition is_file_event (ev : Event) : bool :=
  match ev with EvOpen _ | EvDump _ _ | EvWrite _ _ => true | _ => false end.

Definition files_written (w : World) : list Event :=
  List.filter is_file_event (trace w).

(** What [search_dblp_entry] may do for [title]: print, log, sleep, query
    the search endpoint for [title], or fetch a [.bib] address without
    parameters. *)
Definition search_event (title : string) (ev : Event) : Prop :=
  match ev with
  | EvGet url ps =>
      (url = search_url /\ ps = params title)
      \/ (exists u, url = u +:+ ".bib" /\ ps = [])
  | EvPrint _ | EvLog _ _ | EvSleep _ => True
  | EvOpen _ | EvDump _ _ | EvWrite _ _ => False
  end.

(** [raw] is the body of a 200 answer to the fetch of a [.bib] address. *)
Definition served (net : nat -> string -> list (string * string) -> Reply)
    (raw : string) : Prop :=
  exists i u r,
    net i (u +:+ ".bib") [] = Responds r /\ status_code r = 200 /\ text r = raw.

(** The events of [n] attempts, from attempt [a] on, that each do [body]
    and then reach the sleep of line 47. *)
Fixpoint falling_attempts (body : Z -> list Event) (delay : Z) (n : nat) (a : Z)
  : list Event :=
  match n with
  | O => []
  | S n' => body a ++ [EvSleep delay] ++ falling_attempts body delay n' (a + 1)
  end.

(** An attempt whose search request raises [e]. *)
Definition errored_attempt (title key : string) (e : Exn) (a : Z) : list Event :=
  [EvGet search_url (params title);
   EvPrint (msg_error a key title e);
   EvLog ERROR (msg_error a key title e)].

(** An attempt that finds a record at [url] and fetches it. *)
Definition fetching_attempt (title url : string) (a : Z) : list Event :=
  [EvGet search_url (params title); EvGet (url +:+ ".bib") []].

(** The search answer [r] has status 200 and a first hit whose [info]
    carries the non-empty string [url]. *)
Definition finds (r : Response) (url : string) : Prop :=
  status_code r = 200
  /\ truthy_str url = true
  /\ exists data hit rest info,
      json r = inr data
      /\ extract_hits data = inr (JArr (hit :: rest))
      /\ py_item hit "info" = inr info
      /\ py_get info "url" JNull = inr (JStr url).

(** The lines of a text, as reading it back line by line gives them (each
    without its newline; a last line need not be terminated). *)
Fixpoint split_lines (s : string) : list string :=
  match s with
  | EmptyString => []
  | String a rest =>
      if Ascii.eqb a (ascii_of_nat 10) then EmptyString :: split_lines rest
      else match split_lines rest with
           | [] => [String a EmptyString]
           | line :: lines => String a line :: lines
           end
  end.

(** Parsing does not raise on the non-empty records that the network
    serves. *)
Definition parses_fetched (net : nat -> string -> list (string * string) -> Reply)
    (loads : string -> Exn + list Entry) : Prop :=
  forall raw,
    served net raw -> truthy_str raw = true -> exists parsed, loads raw = inr parsed.

(** What [update_bib_file] does to the files once the loop is over, in
    order: the output file, then the failure keys if there are any. *)
Definition output_writes (output_file : string) (out : list Entry)
    (fk : list string) : list Event :=
  [EvOpen output_file; EvDump output_file out]
  ++ match fk with
     | [] => []
     | _ :: _ => [EvOpen "failed_keys.txt";
                  EvWrite "failed_keys.txt" (failed_lines fk)]
     end.

(** An entry has a title and a key: its ["title"] holds a character other
    than a brace, and its ["ID"] is not empty. *)
Definition is_brace (a : ascii) : bool :=
  Ascii.eqb a "{" || Ascii.eqb a "}".

Definition has_title_and_key (entry : Entry) : bool :=
  match entry !! "title", entry !! "ID" with
  | Some t, Some k =>
      existsb (fun a => negb (is_brace a)) (String.list_ascii_of_string t)
      && negb (String.eqb k EmptyString)
  | _, _ => false
  end.

(** The accumulators are only appended to: a run from any accumulators is
    the run from empty ones, with its results appended. *)
Definition appended (u : list Entry) (fk : list string)
    (res : Outcome Acc * World) : Outcome Acc * World :=
  match res with
  | (Return (o, f), w') => (Return (u ++ o, fk ++ f), w')
  | (Raise e, w') => (Raise e, w')
  | (OutOfFuel, w') => (OutOfFuel, w')
  end.

(** The messages printed and the messages logged among some events, and
    the seconds slept. *)
Fixpoint printed (evs : list Event) : list string :=
  match evs with
  | [] => []
  | EvPrint msg :: rest => msg :: printed rest
  | _ :: rest => printed rest
  end.

Fixpoint logged (evs : list Event) : list string :=
  match evs with
  | [] => []
  | EvLog _ msg :: rest => msg :: logged rest
  | _ :: rest => logged rest
  end.

Fixpoint slept (evs : list Event) : Z :=
  match evs with
  | [] => 0
  | EvSleep secs :: rest => secs + slept rest
  | _ :: rest => slept rest
  end.

(** ** Sample runs *)

Module Samples.

Definition w0 : World := mkWorld 0 [].

Definition resp404 : Response :=
  mkResponse 404 (inl (PyExn "JSONDecodeError" "Expecting value")) "Not Found".

(** A search answer without any hit, the shape DBLP sends. *)
Definition no_hit_json : JSON :=
  JObj [("result", JObj [("hits", JObj [("@total", JStr "0")])])].

Definition one_hit_json (url : string) : JSON :=
  JObj [("result",
         JObj [("hits",
                JObj [("@total", JStr "1");
                      ("hit", JArr [JObj [("info", JObj [("url", JStr url)])]])])])].

Definition resp_json (j : JSON) : Response := mkResponse 200 (inr j) "{...}".

Definition resp_bib (body : string) : Response :=
  mkResponse 200 (inl (PyExn "JSONDecodeError" "Expecting value")) body.

Definition net404 : nat -> string -> list (string * string) -> Reply :=
  fun _ _ _ => Responds resp404.

Definition net_no_hit : nat -> string -> list (string * string) -> Reply :=
  fun _ _ _ => Responds (resp_json no_hit_json).

(** A search request finds one record at [rec_url]; fetching
    [rec_url.bib] gives [body]. *)
Definition net_found (body : string) : nat -> string -> list (string * string) -> Reply :=
  fun _ url _ =>
    if String.eqb url search_url
    then Responds (resp_json (one_hit_json "https://dblp.org/rec/conf/nips/VaswaniSPUJGKP17"))
    else Responds (resp_bib body).

(** The entry of the specification's scenario, a second one, and two that
    the reconciler skips. *)
Definition foo2020 : Entry :=
  list_to_map [("ID", "foo2020"); ("ENTRYTYPE", "inproceedings");
               ("title", "{Attention} Is All You Need")].

Definition bar2021 : Entry :=
  list_to_map [("ID", "bar2021"); ("ENTRYTYPE", "article");
               ("title", "An Unknown Paper"); ("year", "2021")].

Definition untitled : Entry :=
  list_to_map [("ID", "baz2019"); ("ENTRYTYPE", "misc"); ("title", "{}")].

Definition keyless : Entry :=
  list_to_map [("ENTRYTYPE", "misc"); ("title", "No Key")].

Definition library : list Entry := [foo2020; untitled; bar2021; keyless].

(** The record DBLP has for the first entry, as bibtexparser parses it. *)
Definition attention17 : Entry :=
  list_to_map [("ID", "attention17"); ("ENTRYTYPE", "inproceedings");
               ("author", "Vaswani et al.");
               ("title", "Attention Is All You Need")].

Definition loads_attention17 : string -> Exn + list Entry :=
  fun _ => inr [attention17].

(** A parser that finds no entry in anything. *)
Definition loads_nothing : string -> Exn + list Entry :=
  fun _ => inr [].

(** A parser that rejects the text it is given, as bibtexparser does on a
    syntax error. *)
Definition loads_raising : string -> Exn + list Entry :=
  fun _ => inl (PyExn "ParseException" "Expected end of text").

(** A local entry that already has the fields of the DBLP record. *)
Definition up_to_date : Entry :=
  list_to_map [("ID", "vaswani17"); ("ENTRYTYPE", "inproceedings");
               ("author", "Vaswani et al.");
               ("title", "Attention Is All You Need")].

(** DBLP knows the first title of [library] only. *)
Definition net_mixed : nat -> string -> list (string * string) -> Reply :=
  fun _ url params =>
    if String.eqb url search_url then
      match params with
      | (_, q) :: _ =>
          if String.eqb q "Attention Is All You Need"
          then Responds (resp_json (one_hit_json "https://dblp.org/rec/conf/nips/VaswaniSPUJGKP17"))
          else Responds (resp_json no_hit_json)
      | [] => Responds (resp_json no_hit_json)
      end
    else Responds (resp_bib "@inproceedings{...}").

(** Two runs of the loop over [library]: one in which DBLP knows every
    title, one in which it knows none. *)
Definition run_found : Outcome Acc * World :=
  for_entries (net_found "@inproceedings{...}") loads_attention17 library ([], []) w0.

Definition run_no_hit : Outcome Acc * World :=
  for_entries net_no_hit loads_attention17 library ([], []) w0.

Definition run_mixed : Outcome Acc * World :=
  for_entries net_mixed loads_attention17 library ([], []) w0.

(** The world once DBLP has answered the search for [foo2020] and served
    an empty record. *)
Definition fetched_empty : World :=
  (search_dblp_entry (net_found EmptyString) (entry_title foo2020)
     (entry_key foo2020) 5 2 (announced foo2020 w0)).2.

(** The network is down: every request raises. *)
Definition connection_error : Exn :=
  PyExn "ConnectionError" "Max retries exceeded with url: /search/publ/api".

Definition net_down : nat -> string -> list (string * string) -> Reply :=
  fun _ _ _ => Fails connection_error.

(** DBLP finds every title, but serving the record fails. *)
Definition rec_url : string := "https://dblp.org/rec/conf/nips/VaswaniSPUJGKP17".

Definition net_fetch_refused : nat -> string -> list (string * string) -> Reply :=
  fun _ url _ =>
    if String.eqb url search_url
    then Responds (resp_json (one_hit_json rec_url))
    else Responds resp404.

(** The world once [foo2020] has been replaced in a run. *)
Definition after_foo2020 : World :=
  (for_entries net_mixed loads_attention17 [foo2020; untitled] ([], []) w0).2.

(** The world once DBLP has answered the search for [foo2020] and served
    [body]. *)
Definition searched (body : string) : World :=
  (search_dblp_entry (net_found body) (entry_title foo2020) (entry_key foo2020)
     5 2 (announced foo2020 w0)).2.

(** The search, which comes with parameters, finds a record; the fetch,
    which comes without, serves [body]. *)
Definition net_by_params (body : string)
  : nat -> string -> list (string * string) -> Reply :=
  fun _ _ ps =>
    match ps with
    | [] => Responds (resp_bib body)
    | _ :: _ => Responds (resp_json (one_hit_json rec_url))
    end.

(** A parser that accepts [body] and rejects every other text. *)
Definition loads_only (body : string) : string -> Exn + list Entry :=
  fun raw =>
    if String.eqb raw body then inr [attention17]
    else inl (PyExn "ParseException" "Expected end of text").

(** Every file can be opened for writing, and every list of entries
    serialised. *)
Definition open_ok : nat -> string -> option Exn := fun _ _ => None.

Definition dump_ok : list Entry -> option Exn := fun _ => None.

(** The input file of [main] holds [library]; no other file can be read. *)
Definition load_library : string -> Exn + list Entry :=
  fun path =>
    if String.eqb path "custom_old.bib" then inr library
    else inl (PyExn "FileNotFoundError" "No such file or directory").

End Samples.

(** * The query function *)

Section SearchFacts.

Variable net : nat -> string -> list (string * string) -> Reply.
Variables (title key : string) (max_retries delay : Z).

Lemma after_after w n1 evs1 n2 evs2 :
  after (after w n1 evs1) n2 evs2 = after w (n1 + n2) (evs1 ++ evs2).
Proof.
  unfold after; cbn [requests_made trace].
  by rewrite rev_app_distr, Nat.add_assoc, (assoc_L (++)).
Qed.

Lemma iteration_refused a w r :
  net (requests_made w) search_url (params title) = Responds r ->
  status_code r <> 200 ->
  0 <= delay ->
  iteration net title key delay (mkFrame a w)
  = (Return CContinue, mkFrame (a + 1) (after w 1 (refused_attempt title key delay a))).
Proof.
  intros Hnet Hst Hd.
  unfold iteration, try_except, try_block, bind, on_world, requests_get.
  cbn [world attempt]. rewrite Hnet.
  destruct (Z.eqb_spec (status_code r) 200) as [|_]; [done|].
  cbn. unfold time_sleep.
  destruct (Z.ltb_spec delay 0) as [|_]; [lia|].
  cbn. unfold after. cbn. by rewrite Nat.add_1_r.
Qed.

Lemma all_failed_run f :
  all_failed title key max_retries f
  = (Return None, mkFrame (attempt f) (after (world f) 0 (giving_up title key max_retries))).
Proof.
  unfold all_failed, bind, on_world, after. cbn. by rewrite Nat.add_0_r.
Qed.

Lemma iteration_no_hit a w r data hits :
  net (requests_made w) search_url (params title) = Responds r ->
  status_code r = 200 ->
  json r = inr data ->
  extract_hits data = inr hits ->
  truthy hits = false ->
  iteration net title key delay (mkFrame a w)
  = (Return (CReturn None),
     mkFrame a (after w 1 [EvGet search_url (params title);
                           EvPrint (msg_no_results key title);
                           EvLog INFO (msg_no_results key title)])).
Proof.
  intros Hnet Hst Hjson Hhits Hempty.
  unfold iteration, try_except, try_block, bind, on_world, requests_get.
  cbn [world attempt]. rewrite Hnet, Hst, Hjson. cbn.
  rewrite Hhits. cbn. rewrite Hempty. cbn.
  unfold after. cbn. by rewrite Nat.add_1_r.
Qed.

(** One iteration never raises out of its [try], and never moves
    [attempt] backwards; it has moved it by one when it ends in
    [continue]. *)
Lemma iteration_cases f :
  exists ctl f',
    iteration net title key delay f = (Return ctl, f')
    /\ attempt f <= attempt f'
    /\ (ctl = CContinue -> attempt f' = attempt f + 1).
Proof.
  unfold iteration, try_except, try_block, except_block, bind, on_world,
    requests_get, time_sleep, lift_sum, raise, ret, emit, get_attempt,
    incr_attempt, print, logging.
  destruct f as [a w]. cbn.
  repeat (case_match; simplify_eq/=);
    (eexists _, _; split; [reflexivity|]; cbn; split; [lia|]; intros; (done || lia)).
Qed.

Lemma while_loop_S fuel f :
  while_loop net title key max_retries delay (S fuel) f
  = if attempt f <? max_retries then
      (ctl <- iteration net title key delay ;;
       match ctl with
       | CReturn v => ret v
       | CContinue => while_loop net title key max_retries delay fuel
       | CFallThrough =>
           incr_attempt ;;;
           on_world (time_sleep delay) ;;;
           while_loop net title key max_retries delay fuel
       end) f
    else all_failed title key max_retries f.
Proof. reflexivity. Qed.

Lemma while_loop_exit fuel f :
  max_retries <= attempt f ->
  while_loop net title key max_retries delay fuel f
  = all_failed title key max_retries f.
Proof.
  intros H. destruct fuel; cbn [while_loop];
    by destruct (Z.ltb_spec (attempt f) max_retries); [lia|].
Qed.

(** The fuel [search_dblp_entry] gives its loop is enough: whatever the
    network does and whatever the arguments are, the loop ends by itself. *)
Lemma while_loop_fuel fuel : forall f,
  (Z.to_nat (max_retries - attempt f) <= fuel)%nat ->
  (while_loop net title key max_retries delay fuel f).1 <> OutOfFuel.
Proof.
  induction fuel as [|fuel IH]; intros f Hfuel.
  - rewrite while_loop_exit by lia. by rewrite all_failed_run.
  - rewrite while_loop_S.
    destruct (Z.ltb_spec (attempt f) max_retries); [|by rewrite all_failed_run].
    destruct (iteration_cases f) as (ctl & f1 & Hit & Hle & Hcont).
    unfold bind at 1. rewrite Hit.
    destruct ctl as [v| |]; [done|apply IH; specialize (Hcont eq_refl); lia|].
    unfold bind, incr_attempt, on_world, time_sleep. cbn.
    destruct (delay <? 0); [done|]. cbn.
    specialize (IH (mkFrame (attempt f1 + 1)
                      (mkWorld (requests_made (world f1)) (EvSleep delay :: trace (world f1))))).
    cbn in IH.
    destruct (while_loop _ _ _ _ _ _ _) as [[]?]; cbn in *; try done.
    apply IH; lia.
Qed.

(** With a delay that [time.sleep] accepts, the loop returns. *)
Lemma while_loop_returns fuel : forall f,
  0 <= delay ->
  (Z.to_nat (max_retries - attempt f) <= fuel)%nat ->
  exists v f', while_loop net title key max_retries delay fuel f = (Return v, f').
Proof.
  induction fuel as [|fuel IH]; intros f Hd Hfuel.
  - rewrite while_loop_exit by lia. rewrite all_failed_run. eauto.
  - rewrite while_loop_S.
    destruct (Z.ltb_spec (attempt f) max_retries); [|rewrite all_failed_run; eauto].
    destruct (iteration_cases f) as (ctl & f1 & Hit & Hle & Hcont).
    unfold bind at 1. rewrite Hit.
    destruct ctl as [v| |]; [by eexists _, _|apply IH; [done|]; specialize (Hcont eq_refl); lia|].
    unfold bind, incr_attempt, on_world, time_sleep. cbn.
    destruct (Z.ltb_spec delay 0); [lia|]. cbn.
    edestruct (IH (mkFrame (attempt f1 + 1)
                      (mkWorld (requests_made (world f1)) (EvSleep delay :: trace (world f1)))))
      as (v & f' & ->); [done|cbn; lia|eauto].
Qed.

Lemma search_dblp_entry_no_hit w r data hits :
  0 < max_retries ->
  net (requests_made w) search_url (params title) = Responds r ->
  status_code r = 200 ->
  json r = inr data ->
  extract_hits data = inr hits ->
  truthy hits = false ->
  search_dblp_entry net title key max_retries delay w
  = (Return None,
     after w 1 [EvGet search_url (params title);
                EvPrint (msg_no_results key title);
                EvLog INFO (msg_no_results key title)]).
Proof.
  intros Hpos Hnet Hst Hjson Hhits Hempty. unfold search_dblp_entry.
  destruct (Z.to_nat max_retries) as [|fuel] eqn:Hfuel; [lia|].
  rewrite while_loop_S. cbn [attempt].
  destruct (Z.ltb_spec 0 max_retries); [|lia].
  unfold bind at 1.
  by rewrite (iteration_no_hit 0 w r data hits).
Qed.

Lemma search_dblp_entry_terminates w :
  (search_dblp_entry net title key max_retries delay w).1 <> OutOfFuel.
Proof.
  unfold search_dblp_entry.
  pose proof (while_loop_fuel (Z.to_nat max_retries) (mkFrame 0 w)) as H.
  destruct (while_loop _ _ _ _ _ _ _) as [r f]. cbn in *. apply H. lia.
Qed.

Lemma search_dblp_entry_returns w :
  0 <= delay ->
  exists v w', search_dblp_entry net title key max_retries delay w = (Return v, w').
Proof.
  intros Hd. unfold search_dblp_entry.
  destruct (while_loop_returns (Z.to_nat max_retries) (mkFrame 0 w) Hd)
    as (v & f & ->); [cbn; lia|eauto].
Qed.

(** All requests refused: the loop runs until [attempt] has reached
    [max_retries]. *)
Lemma while_loop_refused n : forall a w fuel,
  (forall i, exists r,
      net i search_url (params title) = Responds r /\ status_code r <> 200) ->
  0 <= delay ->
  Z.to_nat (max_retries - a) = n ->
  (n <= fuel)%nat ->
  exists a',
    while_loop net title key max_retries delay fuel (mkFrame a w)
    = (Return None,
       mkFrame a' (after w n (refused_attempts title key delay n a
                              ++ giving_up title key max_retries))).
Proof.
  induction n as [|n IH]; intros a w fuel Hnet Hd Hn Hfuel.
  - rewrite while_loop_exit by (cbn; lia). rewrite all_failed_run. eauto.
  - destruct fuel as [|fuel]; [lia|].
    rewrite while_loop_S. cbn [attempt].
    destruct (Z.ltb_spec a max_retries); [|lia].
    destruct (Hnet (requests_made w)) as (r & Hr & Hst).
    unfold bind at 1. rewrite (iteration_refused a w r Hr Hst Hd).
    destruct (IH (a + 1) (after w 1 (refused_attempt title key delay a)) fuel) as [a' ->];
      [done|done|lia|lia|].
    exists a'. by rewrite after_after.
Qed.

End SearchFacts.

(** A negative [delay] is outside the domain of [time.sleep]: the first
    sleep raises inside the [try], the handler logs it, and the sleep of
    line 47 raises again, this time out of the function. *)
Example negative_delay_raises :
  (search_dblp_entry Samples.net404 "Attention Is All You Need" "foo2020" 5 (-1)
     Samples.w0).1
  = Raise (ValueError "sleep length must be non-negative").
Proof. vm_compute. reflexivity. Qed.

(** What a call does to the world, on every path. *)

Section SearchEffects.

Variable net : nat -> string -> list (string * string) -> Reply.
Variables (title key : string) (max_retries delay : Z).

Lemma count_gets_app evs1 evs2 :
  count_gets (evs1 ++ evs2) = (count_gets evs1 + count_gets evs2)%nat.
Proof. unfold count_gets. by rewrite List.filter_app, length_app. Qed.

Lemma printed_app evs1 evs2 : printed (evs1 ++ evs2) = printed evs1 ++ printed evs2.
Proof. induction evs1 as [|[] evs1 IH]; cbn; by rewrite ?IH. Qed.

Lemma logged_app evs1 evs2 : logged (evs1 ++ evs2) = logged evs1 ++ logged evs2.
Proof. induction evs1 as [|[] evs1 IH]; cbn; by rewrite ?IH. Qed.

Lemma slept_app evs1 evs2 : slept (evs1 ++ evs2) = slept evs1 + slept evs2.
Proof. induction evs1 as [|[] evs1 IH]; cbn; rewrite ?IH; lia. Qed.

Lemma after_nothing w : after w (count_gets []) [] = w.
Proof. destruct w. unfold after. cbn. by rewrite Nat.add_0_r. Qed.

(** The events between [base] and [tr], oldest first. *)
Ltac events_since tr base acc :=
  lazymatch tr with
  | base => acc
  | ?ev :: ?tr' => events_since tr' base constr:(ev :: acc)
  end.

(** What one iteration does to the world, whichever way it goes. *)
Lemma iteration_effect f :
  exists ctl f' evs,
    iteration net title key delay f = (Return ctl, f')
    /\ world f' = after (world f) (count_gets evs) evs
    /\ (count_gets evs <= 2)%nat
    /\ Forall (search_event title) evs
    /\ printed evs = logged evs
    /\ slept evs = match ctl with CContinue => delay | _ => 0 end
    /\ attempt f <= attempt f'
    /\ (ctl = CContinue -> attempt f' = attempt f + 1)
    /\ (forall raw, ctl = CReturn (Some raw) -> served net raw).
Proof.
  unfold iteration, try_except, try_block, except_block, bind, on_world,
    requests_get, time_sleep, lift_sum, raise, ret, emit, get_attempt,
    incr_attempt, print, logging.
  destruct f as [a w]. cbn.
  repeat (case_match; simplify_eq/=).
  all: try match goal with
           | H : py_add_str ?v _ = inr _ |- _ => destruct v; simplify_eq/=
           end.
  all: lazymatch goal with
    | |- context [(Return ?c, mkFrame ?a' (mkWorld ?n ?tr))] =>
        let evs := events_since tr (trace w) constr:(@nil Event) in
        exists c, (mkFrame a' (mkWorld n tr)), evs
    end.
  all: split; [reflexivity|].
  all: split; [unfold after, count_gets; cbn; f_equal; lia|].
  all: split; [unfold count_gets; cbn; lia|].
  all: split; [repeat (apply List.Forall_cons; [cbn; eauto|]); apply List.Forall_nil|].
  all: split; [reflexivity|].
  all: split; [cbn; lia|].
  all: split; [cbn; lia|].
  all: split; [cbn; intros; (done || lia)|].
  all: intros raw [= <-].
  all: match goal with
       | H : net _ (?s +:+ ".bib") [] = Responds ?r,
         E : (status_code ?r =? 200) = true |- _ =>
           exists (S (requests_made w)), s, r;
           split_and!; [exact H|by apply Z.eqb_eq|done]
       end.
Qed.

Lemma while_loop_effect fuel : forall f,
  exists r f' evs,
    while_loop net title key max_retries delay fuel f = (r, f')
    /\ world f' = after (world f) (count_gets evs) evs
    /\ (count_gets evs <= 2 * Z.to_nat (max_retries - attempt f))%nat
    /\ Forall (search_event title) evs
    /\ printed evs = logged evs
    /\ (0 <= delay ->
        0 <= slept evs <= delay * Z.of_nat (Z.to_nat (max_retries - attempt f)))
    /\ (forall raw, r = Return (Some raw) -> served net raw).
Proof.
  induction fuel as [|fuel IH]; intros f.
  - cbn [while_loop]. destruct (Z.ltb_spec (attempt f) max_retries).
    + exists OutOfFuel, f, []. rewrite after_nothing.
      split_and!; [done|done|cbn; lia|constructor|done|cbn; nia|done].
    + rewrite all_failed_run.
      exists (Return None), (mkFrame (attempt f)
               (after (world f) 0 (giving_up title key max_retries))),
             (giving_up title key max_retries).
      split_and!; [done|done|cbn; lia|repeat constructor|done|cbn; nia|done].
  - rewrite while_loop_S. destruct (Z.ltb_spec (attempt f) max_retries).
    2:{ rewrite all_failed_run.
        exists (Return None), (mkFrame (attempt f)
                 (after (world f) 0 (giving_up title key max_retries))),
               (giving_up title key max_retries).
        split_and!; [done|done|cbn; lia|repeat constructor|done|cbn; nia|done]. }
    destruct (iteration_effect f)
      as (ctl & f1 & evs1 & Hit & Hw1 & Hn1 & Hev1 & Hpl1 & Hsl1 & Hle & Hcont & Hserved).
    unfold bind at 1. rewrite Hit. destruct ctl as [v| |].
    + exists (Return v), f1, evs1.
      split_and!; [done|done|lia|done|done|nia|]. intros raw [= ->]. by apply Hserved.
    + destruct (IH f1) as (r & f' & evs2 & -> & Hw2 & Hn2 & Hev2 & Hpl2 & Hsl2 & Hs2).
      specialize (Hcont eq_refl). exists r, f', (evs1 ++ evs2).
      rewrite count_gets_app, printed_app, logged_app, slept_app,
        <- after_after, <- Hw1.
      split_and!; [done|done|lia|by apply Forall_app|congruence|intros Hd|done].
      specialize (Hsl2 Hd). nia.
    + unfold bind, incr_attempt, on_world, time_sleep. cbn.
      destruct (Z.ltb_spec delay 0).
      * cbn. exists (Raise (ValueError "sleep length must be non-negative")),
               (mkFrame (attempt f1 + 1) (world f1)), evs1. cbn.
        by split_and!; [done|done|lia|done|done|lia|].
      * cbn.
        destruct (IH (mkFrame (attempt f1 + 1)
                        (mkWorld (requests_made (world f1))
                                 (EvSleep delay :: trace (world f1)))))
          as (r & f' & evs2 & -> & Hw2 & Hn2 & Hev2 & Hpl2 & Hsl2 & Hs2).
        cbn in Hw2, Hn2, Hsl2. exists r, f', (evs1 ++ [EvSleep delay] ++ evs2).
        assert (Hc : count_gets (evs1 ++ [EvSleep delay] ++ evs2)
                     = (count_gets evs1 + count_gets evs2)%nat)
          by (rewrite !count_gets_app; reflexivity).
        rewrite Hc, !printed_app, !logged_app, !slept_app. cbn [printed logged slept].
        split_and!; [done| |lia| |cbn; congruence|intros Hd|done].
        -- rewrite Hw2, Hw1. unfold after. cbn [requests_made trace].
           rewrite !rev_app_distr. cbn [rev app].
           rewrite <- !(assoc_L (++)). cbn [app]. f_equal. lia.
        -- apply Forall_app. split; [done|]. by constructor.
        -- specialize (Hsl2 Hd). nia.
Qed.

Lemma search_effect w :
  exists evs,
    (search_dblp_entry net title key max_retries delay w).2
    = after w (count_gets evs) evs
    /\ (count_gets evs <= 2 * Z.to_nat max_retries)%nat
    /\ Forall (search_event title) evs
    /\ printed evs = logged evs
    /\ (0 <= delay -> 0 <= slept evs <= delay * Z.of_nat (Z.to_nat max_retries))
    /\ (forall raw,
          (search_dblp_entry net title key max_retries delay w).1
          = Return (Some raw) ->
          served net raw).
Proof.
  unfold search_dblp_entry.
  destruct (while_loop_effect (Z.to_nat max_retries) (mkFrame 0 w))
    as (r & f' & evs & -> & Hw & Hn & Hev & Hpl & Hsl & Hs).
  cbn in *. exists evs. rewrite Z.sub_0_r in Hn, Hsl. by split_and!.
Qed.

(** Attempts that all reach line 46 in the same way. *)
Lemma while_loop_falling (body : Z -> list Event) (g : nat) n : forall a w fuel,
  (forall a w,
      iteration net title key delay (mkFrame a w)
      = (Return CFallThrough, mkFrame a (after w g (body a)))) ->
  0 <= delay ->
  Z.to_nat (max_retries - a) = n ->
  (n <= fuel)%nat ->
  exists a',
    while_loop net title key max_retries delay fuel (mkFrame a w)
    = (Return None,
       mkFrame a' (after w (n * g) (falling_attempts body delay n a
                                    ++ giving_up title key max_retries))).
Proof.
  induction n as [|n IH]; intros a w fuel Hit Hd Hn Hfuel.
  - rewrite while_loop_exit by (cbn; lia). rewrite all_failed_run. eauto.
  - destruct fuel as [|fuel]; [lia|].
    rewrite while_loop_S. cbn [attempt].
    destruct (Z.ltb_spec a max_retries); [|lia].
    unfold bind at 1. rewrite Hit.
    unfold bind, incr_attempt, on_world, time_sleep. cbn.
    destruct (Z.ltb_spec delay 0); [lia|]. cbn.
    destruct (IH (a + 1) (after w g (body a ++ [EvSleep delay])) fuel)
      as [a' Hrun]; [done|done|lia|lia|].
    exists a'.
    replace (mkWorld (requests_made w + g) (EvSleep delay :: rev (body a) ++ trace w))
      with (after w g (body a ++ [EvSleep delay]))
      by (unfold after; by rewrite rev_app_distr).
    rewrite Hrun, after_after.
    cbn [falling_attempts Nat.mul]. by rewrite <- !(assoc_L (++)).
Qed.

Lemma iteration_found a w r url r2 :
  net (requests_made w) search_url (params title) = Responds r ->
  finds r url ->
  net (S (requests_made w)) (url +:+ ".bib") [] = Responds r2 ->
  iteration net title key delay (mkFrame a w)
  = (Return (if status_code r2 =? 200 then CReturn (Some (text r2)) else CFallThrough),
     mkFrame a (after w 2 (fetching_attempt title url a))).
Proof.
  intros Hnet (Hst & Hurl & data & hit & rest & info & Hjson & Hhits & Hinfo & Hu) Hnet2.
  unfold iteration, try_except, try_block, bind, on_world, requests_get.
  cbn [world attempt]. rewrite Hnet, Hst, Hjson. cbn. rewrite Hhits. cbn.
  rewrite Hinfo. cbn. rewrite Hu. cbn. unfold truthy_str in Hurl. rewrite Hurl. cbn.
  rewrite Hnet2. unfold after. cbn. rewrite Nat.add_comm.
  by destruct (status_code r2 =? 200).
Qed.

Lemma iteration_errored a w e :
  net (requests_made w) search_url (params title) = Fails e ->
  iteration net title key delay (mkFrame a w)
  = (Return CFallThrough, mkFrame a (after w 1 (errored_attempt title key e a))).
Proof.
  intros Hnet.
  unfold iteration, try_except, try_block, except_block, bind, on_world, requests_get.
  cbn [world attempt]. rewrite Hnet. unfold after. cbn. by rewrite Nat.add_1_r.
Qed.

Lemma search_dblp_entry_falling (body : Z -> list Event) (g : nat) w :
  (forall a w,
      iteration net title key delay (mkFrame a w)
      = (Return CFallThrough, mkFrame a (after w g (body a)))) ->
  0 <= delay ->
  search_dblp_entry net title key max_retries delay w
  = (Return None,
     after w (Z.to_nat max_retries * g)
       (falling_attempts body delay (Z.to_nat max_retries) 0
        ++ giving_up title key max_retries)).
Proof.
  intros Hit Hd. unfold search_dblp_entry.
  destruct (while_loop_falling body g (Z.to_nat max_retries) 0 w
              (Z.to_nat max_retries) Hit Hd) as [a' ->]; [f_equal; lia|lia|done].
Qed.

Lemma search_event_no_file ev :
  search_event title ev -> is_file_event ev = false.
Proof. by destruct ev. Qed.

Lemma files_written_after w n evs :
  Forall (fun ev => is_file_event ev = false) evs ->
  files_written (after w n evs) = files_written w.
Proof.
  unfold files_written, after. cbn [trace]. rewrite List.filter_app.
  induction 1 as [|ev evs Hev _ IH]; cbn; [done|].
  rewrite List.filter_app. cbn. rewrite Hev. cbn.
  by rewrite app_nil_r.
Qed.

End SearchEffects.

(** * The reconciler *)

Section ReconcilerFacts.

Variable net : nat -> string -> list (string * string) -> Reply.
Variable loads : string -> Exn + list Entry.

Lemma valid_inv entry :
  valid entry = true ->
  entry !! "ID" = Some (entry_key entry)
  /\ truthy_str (entry_title entry) = true
  /\ truthy_str (entry_key entry) = true.
Proof.
  unfold valid, entry_key. destruct (entry !! "ID") as [k|]; cbn.
  - by intros [??]%andb_prop.
  - by rewrite andb_false_r.
Qed.

Lemma loop_body_skip entry acc w :
  valid entry = false ->
  loop_body net loads entry acc w = (Return acc, w).
Proof.
  unfold valid, loop_body. destruct (entry !! "ID") as [k|]; cbn; [|done].
  intros H. destruct (truthy_str (entry_title entry)), (truthy_str k); done.
Qed.

Lemma loop_body_valid entry acc w :
  valid entry = true ->
  loop_body net loads entry acc w
  = (new_bibtex <- search_dblp_entry net (entry_title entry) (entry_key entry) 5 2 ;;
     acc' <- merge loads entry (entry_key entry) (entry_title entry) acc new_bibtex ;;
     time_sleep 1 ;;;
     ret acc') (announced entry w).
Proof.
  intros (Hid & Ht & Hk)%valid_inv. unfold loop_body. rewrite Hid, Ht, Hk. cbn.
  unfold announced, after, bind at 1 2. cbn. by rewrite Nat.add_0_r.
Qed.

(** The three ways [merge] ends. *)
Lemma merge_cases entry u fk new_bibtex w :
  let k := entry_key entry in
  let t := entry_title entry in
  (exists e, merge loads entry k t (u, fk) new_bibtex w = (Raise e, w)
             /\ exists raw, loads raw = inl e)
  \/ (exists m lvl msg,
        merge loads entry k t (u, fk) new_bibtex w
        = (Return (u ++ [merged entry m], fk ++ failure_of entry m),
           match m with
           | Kept => after w 0 [EvPrint msg; EvLog lvl msg]
           | Replaced _ => w
           end)
        /\ fetched loads m
        /\ (truthy_opt new_bibtex = false -> m = Kept)).
Proof.
  intros k t. unfold merge.
  destruct (truthy_opt new_bibtex) eqn:Hnb.
  - destruct new_bibtex as [raw|]; [|done]. cbn [from_option id truthy_opt] in *.
    unfold bind at 1. destruct (loads raw) as [e|[|new_entry rest]] eqn:Hl; cbn.
    + left. exists e. split; [done|by exists raw].
    + right. exists Kept, WARNING, (msg_no_parsed k t).
      unfold after. cbn. by rewrite Nat.add_0_r.
    + right. exists (Replaced new_entry), INFO, EmptyString. cbn.
      rewrite app_nil_r. destruct w. split_and!; [done|eauto|done].
  - right. exists Kept, INFO, (msg_keeping k t).
    unfold after. cbn. by rewrite Nat.add_0_r.
Qed.

Lemma loop_body_returns_inv entry u fk w acc' w' :
  valid entry = true ->
  loop_body net loads entry (u, fk) w = (Return acc', w') ->
  exists m, acc' = (u ++ [merged entry m], fk ++ failure_of entry m) /\ fetched loads m.
Proof.
  intros Hv. rewrite loop_body_valid by done. unfold bind at 1.
  destruct (search_dblp_entry _ _ _ _ _ _) as [[nb| |] w1]; [|done..].
  unfold bind at 1.
  destruct (merge_cases entry u fk nb w1) as [(e & -> & _)|(m & lvl & msg & -> & Hf & _)];
    [done|].
  cbn. intros [= <- _]. eauto.
Qed.

Lemma for_entries_returns_inv es : forall u fk w u' fk' w',
  for_entries net loads es (u, fk) w = (Return (u', fk'), w') ->
  exists ms,
    length ms = length (List.filter valid es)
    /\ u' = u ++ outputs (List.filter valid es) ms
    /\ fk' = fk ++ failures (List.filter valid es) ms
    /\ Forall (fetched loads) ms.
Proof.
  induction es as [|e es IH]; intros u fk w u' fk' w' Hrun.
  - cbn in Hrun. injection Hrun as <- <- <-. exists [].
    cbn. by rewrite !app_nil_r.
  - cbn [for_entries List.filter] in *. unfold bind at 1 in Hrun.
    destruct (valid e) eqn:Hv.
    + destruct (loop_body net loads e (u, fk) w) as [[acc1| |] w1] eqn:Hbody;
        [|done..].
      destruct (loop_body_returns_inv _ _ _ _ _ _ Hv Hbody) as (m & -> & Hm).
      destruct (IH _ _ _ _ _ _ Hrun) as (ms & Hlen & -> & -> & Hms).
      exists (m :: ms). unfold outputs, failures. cbn.
      rewrite <- !(assoc_L (++)). split_and!; [by f_equal|done|done|by constructor].
    + rewrite loop_body_skip in Hrun by done. eauto.
Qed.

Lemma filter_valid_Forall es : Forall (fun e => valid e = true) (List.filter valid es).
Proof.
  induction es as [|e es IH]; cbn; [done|].
  destruct (valid e) eqn:Hv; [by constructor|done].
Qed.

Lemma filter_valid_id es :
  Forall (fun e => valid e = true) es -> List.filter valid es = es.
Proof.
  induction 1 as [|e es Hv _ IH]; cbn; [done|]. by rewrite Hv, IH.
Qed.

Lemma outputs_Forall2 (P : Entry -> Entry -> Prop) (Q : Merge -> Prop) sources :
  forall ms,
  length ms = length sources ->
  Forall Q ms ->
  Forall (fun src => forall m, Q m -> P src (merged src m)) sources ->
  Forall2 P sources (outputs sources ms).
Proof.
  unfold outputs.
  induction sources as [|src sources IH]; intros [|m ms] Hlen HQ HP; cbn in *;
    try done.
  inversion_clear HP. inversion_clear HQ.
  constructor; [auto|]. apply IH; [lia|done..].
Qed.

Lemma merged_key src m :
  valid src = true -> merged src m !! "ID" = src !! "ID".
Proof.
  intros (Hid & _)%valid_inv. destruct m as [|new_entry]; cbn; [done|].
  by rewrite lookup_insert_eq.
Qed.

(** A key is in the failure list exactly when some entry bearing it was
    kept. *)
Lemma elem_of_failures k sources : forall ms,
  k ∈ failures sources ms
  <-> exists i src, sources !! i = Some src /\ ms !! i = Some Kept /\ entry_key src = k.
Proof.
  unfold failures.
  induction sources as [|src sources IH]; intros ms; cbn.
  - split; [by intros ?%elem_of_nil|by intros (i & ? & ? & _)].
  - destruct ms as [|m ms]; cbn.
    { split; [by intros ?%elem_of_nil|by intros (i & ? & _ & ? & _)]. }
    rewrite elem_of_app, IH. split.
    + intros [Hk|(i & src' & ? & ? & ?)].
      * destruct m; cbn in Hk; [|by apply elem_of_nil in Hk].
        apply list_elem_of_singleton in Hk. by exists 0%nat, src.
      * by exists (S i), src'.
    + intros ([|i] & src' & Hs & Hm & Hk); cbn in *.
      * left. injection Hs as ->. injection Hm as ->. cbn. rewrite Hk.
        by apply list_elem_of_singleton.
      * right. by exists i, src'.
Qed.

Lemma for_entries_app es1 : forall es2 acc w,
  for_entries net loads (es1 ++ es2) acc w
  = (acc' <- for_entries net loads es1 acc ;; for_entries net loads es2 acc') w.
Proof.
  induction es1 as [|e es1 IH]; intros es2 acc w; [done|].
  cbn [for_entries app]. unfold bind.
  destruct (loop_body net loads e acc w) as [[acc1| |] w1]; [|done..].
  by rewrite IH.
Qed.

(** The three ways a processed entry ends when the parser does not raise. *)
Lemma loop_body_kept_nothing entry u fk w new_bibtex w1 :
  valid entry = true ->
  search_dblp_entry net (entry_title entry) (entry_key entry) 5 2 (announced entry w)
  = (Return new_bibtex, w1) ->
  truthy_opt new_bibtex = false ->
  loop_body net loads entry (u, fk) w
  = (Return (u ++ [entry], fk ++ [entry_key entry]),
     after w1 0 [EvPrint (msg_keeping (entry_key entry) (entry_title entry));
                 EvLog INFO (msg_keeping (entry_key entry) (entry_title entry));
                 EvSleep 1]).
Proof.
  intros Hv Hs Hnb. rewrite loop_body_valid by done. unfold bind at 1. rewrite Hs.
  unfold merge. rewrite Hnb. unfold after. cbn. by rewrite Nat.add_0_r.
Qed.

Lemma loop_body_kept_unparsed entry u fk w raw w1 :
  valid entry = true ->
  search_dblp_entry net (entry_title entry) (entry_key entry) 5 2 (announced entry w)
  = (Return (Some raw), w1) ->
  truthy_str raw = true ->
  loads raw = inr [] ->
  loop_body net loads entry (u, fk) w
  = (Return (u ++ [entry], fk ++ [entry_key entry]),
     after w1 0 [EvPrint (msg_no_parsed (entry_key entry) (entry_title entry));
                 EvLog WARNING (msg_no_parsed (entry_key entry) (entry_title entry));
                 EvSleep 1]).
Proof.
  intros Hv Hs Hraw Hloads. rewrite loop_body_valid by done.
  unfold bind at 1. rewrite Hs. unfold merge. cbn [truthy_opt]. rewrite Hraw.
  unfold bind, lift_sum. cbn. rewrite Hloads.
  unfold after. cbn. by rewrite Nat.add_0_r.
Qed.

Lemma loop_body_replaced entry u fk w raw w1 new_entry rest :
  valid entry = true ->
  search_dblp_entry net (entry_title entry) (entry_key entry) 5 2 (announced entry w)
  = (Return (Some raw), w1) ->
  truthy_str raw = true ->
  loads raw = inr (new_entry :: rest) ->
  loop_body net loads entry (u, fk) w
  = (Return (u ++ [<["ID" := entry_key entry]> new_entry], fk),
     after w1 0 [EvSleep 1]).
Proof.
  intros Hv Hs Hraw Hloads. rewrite loop_body_valid by done.
  unfold bind at 1. rewrite Hs. unfold merge. cbn [truthy_opt]. rewrite Hraw.
  unfold bind, lift_sum. cbn. rewrite Hloads.
  unfold after. cbn. by rewrite Nat.add_0_r.
Qed.

(** When parsing does not raise on what the network serves, the search
    returns and the entry ends in one of these three ways. *)
Lemma loop_body_contained entry u fk w :
  parses_fetched net loads ->
  valid entry = true ->
  exists new_bibtex w1,
    search_dblp_entry net (entry_title entry) (entry_key entry) 5 2 (announced entry w)
    = (Return new_bibtex, w1)
    /\ ((truthy_opt new_bibtex = false
         /\ loop_body net loads entry (u, fk) w
            = (Return (u ++ [entry], fk ++ [entry_key entry]),
               after w1 0
                 [EvPrint (msg_keeping (entry_key entry) (entry_title entry));
                  EvLog INFO (msg_keeping (entry_key entry) (entry_title entry));
                  EvSleep 1]))
        \/ (exists raw,
              new_bibtex = Some raw /\ truthy_str raw = true /\ loads raw = inr []
              /\ loop_body net loads entry (u, fk) w
                 = (Return (u ++ [entry], fk ++ [entry_key entry]),
                    after w1 0
                      [EvPrint (msg_no_parsed (entry_key entry) (entry_title entry));
                       EvLog WARNING (msg_no_parsed (entry_key entry) (entry_title entry));
                       EvSleep 1]))
        \/ (exists raw new_entry rest,
              new_bibtex = Some raw /\ truthy_str raw = true
              /\ loads raw = inr (new_entry :: rest)
              /\ loop_body net loads entry (u, fk) w
                 = (Return (u ++ [<["ID" := entry_key entry]> new_entry], fk),
                    after w1 0 [EvSleep 1]))).
Proof.
  intros Hparse Hv.
  destruct (search_dblp_entry_returns net (entry_title entry) (entry_key entry)
              5 2 (announced entry w)) as (nb & w1 & Hs); [lia|].
  exists nb, w1. split; [done|].
  destruct (truthy_opt nb) eqn:Hnb.
  - destruct nb as [raw|]; [|done]. cbn in Hnb.
    destruct (search_effect net (entry_title entry) (entry_key entry) 5 2
                (announced entry w)) as (evs & _ & _ & _ & _ & _ & Hserved).
    rewrite Hs in Hserved. specialize (Hserved raw eq_refl).
    destruct (Hparse raw Hserved Hnb) as [[|new_entry rest] Hloads].
    + right. left. exists raw. split_and!; [done..|].
      by apply (loop_body_kept_unparsed entry u fk w raw w1).
    + right. right. exists raw, new_entry, rest. split_and!; [done..|].
      by apply (loop_body_replaced entry u fk w raw w1 new_entry rest).
  - left. split; [done|]. by eapply loop_body_kept_nothing.
Qed.

Lemma for_entries_contained es : forall acc w,
  parses_fetched net loads ->
  exists acc' w', for_entries net loads es acc w = (Return acc', w').
Proof.
  induction es as [|e es IH]; intros [u fk] w Hparse; cbn; [by eexists _, _|].
  unfold bind at 1. destruct (valid e) eqn:Hv.
  - destruct (loop_body_contained e u fk w Hparse Hv)
      as (nb & w1 & _ & [[_ ->]|[(raw & _ & _ & _ & ->)
                                |(raw & new_entry & rest & _ & _ & _ & ->)]]);
      by apply IH.
  - rewrite loop_body_skip by done. by apply IH.
Qed.

(** When the search finds nothing, the entry is kept. *)
Lemma loop_body_none entry u fk w w1 :
  valid entry = true ->
  search_dblp_entry net (entry_title entry) (entry_key entry) 5 2 (announced entry w)
  = (Return None, w1) ->
  loop_body net loads entry (u, fk) w
  = (Return (u ++ [entry], fk ++ [entry_key entry]),
     after w1 0 [EvPrint (msg_keeping (entry_key entry) (entry_title entry));
                 EvLog INFO (msg_keeping (entry_key entry) (entry_title entry));
                 EvSleep 1]).
Proof.
  intros Hv Hs. rewrite loop_body_valid by done. unfold bind at 1. rewrite Hs.
  unfold after. cbn. by rewrite Nat.add_0_r.
Qed.

Lemma for_entries_none es : forall u fk w,
  (forall title key w, exists w',
      search_dblp_entry net title key 5 2 w = (Return None, w')) ->
  exists w',
    for_entries net loads es (u, fk) w
    = (Return (u ++ List.filter valid es, fk ++ map entry_key (List.filter valid es)), w').
Proof.
  induction es as [|e es IH]; intros u fk w Hnone; cbn [for_entries List.filter].
  - exists w. cbn. by rewrite !app_nil_r.
  - unfold bind at 1. destruct (valid e) eqn:Hv.
    + destruct (Hnone (entry_title e) (entry_key e) (announced e w)) as [w1 Hs].
      rewrite (loop_body_none e u fk w w1 Hv Hs).
      destruct (IH (u ++ [e]) (fk ++ [entry_key e])
                  (after w1 0 [EvPrint (msg_keeping (entry_key e) (entry_title e));
                               EvLog INFO (msg_keeping (entry_key e) (entry_title e));
                               EvSleep 1]) Hnone) as [w' ->].
      exists w'. cbn [map]. by rewrite <- !(assoc_L (++)).
    + rewrite loop_body_skip by done. by apply IH.
Qed.

(** The test of line 67 is the test for a title and a key. *)
Lemma truthy_stripped t :
  truthy_str (str_remove "}" (str_remove "{" t))
  = existsb (fun a => negb (is_brace a)) (String.list_ascii_of_string t).
Proof.
  induction t as [|a t IH]; [done|]. cbn [str_remove String.list_ascii_of_string existsb].
  unfold is_brace at 1. destruct (Ascii.eqb a "{"); cbn; [done|].
  destruct (Ascii.eqb a "}"); cbn; done.
Qed.

Lemma valid_has_title_and_key entry : valid entry = has_title_and_key entry.
Proof.
  unfold valid, has_title_and_key, entry_title.
  destruct (entry !! "title") as [t|]; cbn.
  - rewrite truthy_stripped. destruct (entry !! "ID") as [k|]; cbn.
    + by destruct k.
    + by rewrite andb_false_r.
  - by destruct (entry !! "ID").
Qed.

(** [update_bib_file] is the loop followed by the writes. *)
Lemma update_bib_file_run load_file open_write dump_raises input_file output_file
    es w out fk w1 :
  load_file input_file = inr es ->
  for_entries net loads es ([], []) w = (Return (out, fk), w1) ->
  update_bib_file net loads load_file open_write dump_raises input_file output_file w
  = write_results open_write dump_raises output_file (out, fk) w1.
Proof.
  intros Hload Hrun. unfold update_bib_file, bind at 1. rewrite Hload. cbn.
  unfold bind at 1. by rewrite Hrun.
Qed.

(** An exception that leaves the loop leaves [update_bib_file] at once. *)
Lemma update_bib_file_raise load_file open_write dump_raises input_file output_file
    es w e w1 :
  load_file input_file = inr es ->
  for_entries net loads es ([], []) w = (Raise e, w1) ->
  update_bib_file net loads load_file open_write dump_raises input_file output_file w
  = (Raise e, w1).
Proof.
  intros Hload Hrun. unfold update_bib_file, bind at 1. rewrite Hload. cbn.
  unfold bind at 1. by rewrite Hrun.
Qed.

(** The writes when nothing refuses them. *)
Lemma write_results_ok open_write dump_raises output_file out fk w :
  (forall i, open_write i output_file = None) ->
  (forall i, open_write i "failed_keys.txt" = None) ->
  dump_raises out = None ->
  write_results open_write dump_raises output_file (out, fk) w
  = (Return tt, after w 0 (output_writes output_file out fk)).
Proof.
  intros Hopen Hopen' Hdump.
  unfold write_results, bind, open_w, dump, output_writes, after.
  rewrite Hopen, Hdump. cbn. destruct fk as [|k fk]; cbn.
  - by rewrite Nat.add_0_r.
  - unfold open_w. rewrite Hopen'. cbn. by rewrite Nat.add_0_r.
Qed.

(** The writes in general: they go through the list of [output_writes] in
    order, as far as nothing refuses. *)
Lemma write_results_effect open_write dump_raises output_file out fk w :
  exists done,
    (write_results open_write dump_raises output_file (out, fk) w).2
    = after w 0 done
    /\ done `prefix_of` output_writes output_file out fk
    /\ ((write_results open_write dump_raises output_file (out, fk) w).1 = Return tt
        <-> done = output_writes output_file out fk).
Proof.
  unfold write_results, bind, open_w, dump, output_writes, raise, emit, ret.
  destruct (open_write (opens_made w) output_file) as [e|]; cbn.
  { exists []. split_and!; [by rewrite <- (after_nothing w) at 1|apply prefix_nil|done]. }
  destruct (dump_raises out) as [e|]; cbn.
  { exists [EvOpen output_file].
    split_and!; [unfold after; cbn; by rewrite Nat.add_0_r|by eexists|done]. }
  destruct fk as [|k fk]; cbn.
  { exists [EvOpen output_file; EvDump output_file out].
    split_and!; [unfold after; cbn; by rewrite Nat.add_0_r|done|done]. }
  destruct (open_write _ "failed_keys.txt") as [e|]; cbn.
  - exists [EvOpen output_file; EvDump output_file out].
    split_and!; [unfold after; cbn; by rewrite Nat.add_0_r|by eexists|done].
  - eexists [EvOpen output_file; EvDump output_file out; EvOpen "failed_keys.txt"; _].
    split_and!; [unfold after; cbn; by rewrite Nat.add_0_r|done|done].
Qed.

End ReconcilerFacts.

(** * The properties of the specification *)

Import Samples.

(** ** The query function *)

(** C5 (retry bound).  When every search request is answered with a status
    other than 200, [search_dblp_entry] issues exactly [max_retries]
    requests, each followed by the warning (printed and logged) with its
    1-based attempt number and by a sleep of [delay], then prints and logs
    the final error and returns [None].  The delay is one that [time.sleep]
    accepts; a [max_retries] below zero counts as no attempt. *)
Theorem retry_bound net title key max_retries delay w :
  (forall i, exists r,
      net i search_url (params title) = Responds r /\ status_code r <> 200) ->
  0 <= delay ->
  search_dblp_entry net title key max_retries delay w
  = (Return None,
     after w (Z.to_nat max_retries)
       (refused_attempts title key delay (Z.to_nat max_retries) 0
        ++ giving_up title key max_retries)).
Proof.
  intros Hnet Hd. unfold search_dblp_entry.
  destruct (while_loop_refused net title key max_retries delay
              (Z.to_nat max_retries) 0 w (Z.to_nat max_retries))
    as [a' ->]; [done|done|f_equal; lia|lia|done].
Qed.

Lemma retry_bound_witness :
  (forall i, exists r,
      net404 i search_url (params "Attention Is All You Need") = Responds r
      /\ status_code r <> 200)
  /\ 0 <= 2
  /\ search_dblp_entry net404 "Attention Is All You Need" "foo2020" 5 2 w0
     = (Return None,
        after w0 5
          (refused_attempts "Attention Is All You Need" "foo2020" 2 5 0
           ++ giving_up "Attention Is All You Need" "foo2020" 5)).
Proof.
  assert (H : forall i : nat, exists r,
             net404 i search_url (params "Attention Is All You Need") = Responds r
             /\ status_code r <> 200).
  { intros i. exists resp404. split; [reflexivity|cbn; lia]. }
  split; [exact H|]. split; [lia|].
  exact (retry_bound net404 "Attention Is All You Need" "foo2020" 5 2 w0 H
           ltac:(lia)).
Defined.

(** C6 (zero-hit short-circuit).  When the first search request comes back
    with status 200 and no hit ([not hits] holds of what line 28 extracts),
    [search_dblp_entry] returns [None] after that single request: the
    absence is printed and logged at INFO, nothing is retried and there is
    no sleep.  A first request exists when [max_retries] is positive. *)
Theorem zero_hit_short_circuit net title key max_retries delay w r data hits :
  0 < max_retries ->
  net (requests_made w) search_url (params title) = Responds r ->
  status_code r = 200 ->
  json r = inr data ->
  extract_hits data = inr hits ->
  truthy hits = false ->
  search_dblp_entry net title key max_retries delay w
  = (Return None,
     after w 1 [EvGet search_url (params title);
                EvPrint (msg_no_results key title);
                EvLog INFO (msg_no_results key title)]).
Proof.
  intros. by eapply search_dblp_entry_no_hit.
Qed.

Lemma zero_hit_short_circuit_witness :
  0 < 5
  /\ search_dblp_entry net_no_hit "An Unknown Paper" "bar2021" 5 2 w0
     = (Return None,
        after w0 1 [EvGet search_url (params "An Unknown Paper");
                    EvPrint (msg_no_results "bar2021" "An Unknown Paper");
                    EvLog INFO (msg_no_results "bar2021" "An Unknown Paper")]).
Proof.
  split; [lia|].
  apply (zero_hit_short_circuit net_no_hit "An Unknown Paper" "bar2021" 5 2 w0
           (resp_json no_hit_json) no_hit_json (JArr []));
    [lia|reflexivity..].
Defined.

(** C10 (zero retries).  With [max_retries <= 0] the loop body never runs:
    no request is issued, the final error is printed and logged, and the
    result is [None]. *)
Theorem zero_retries net title key max_retries delay w :
  max_retries <= 0 ->
  search_dblp_entry net title key max_retries delay w
  = (Return None, after w 0 (giving_up title key max_retries)).
Proof.
  intros Hle. unfold search_dblp_entry.
  rewrite while_loop_exit by (cbn; lia). by rewrite all_failed_run.
Qed.

Lemma zero_retries_witness :
  -3 <= 0
  /\ search_dblp_entry (net_found "@inproceedings{...}") "Attention Is All You Need"
       "foo2020" (-3) 2 w0
     = (Return None, after w0 0 (giving_up "Attention Is All You Need" "foo2020" (-3))).
Proof.
  split; [lia|].
  apply (zero_retries (net_found "@inproceedings{...}")); lia.
Defined.

(** ** The reconciler *)

(** C1 (key stability).  In a completed run, the [i]-th output entry
    carries under ["ID"] the citation key of the [i]-th processed source
    entry, whether it is the fetched record or the original entry. *)
Theorem key_stability net loads es w out fk w' :
  for_entries net loads es ([], []) w = (Return (out, fk), w') ->
  Forall2 (fun src o => o !! "ID" = src !! "ID" /\ o !! "ID" = Some (entry_key src))
    (List.filter valid es) out.
Proof.
  intros Hrun.
  destruct (for_entries_returns_inv net loads es _ _ _ _ _ _ Hrun)
    as (ms & Hlen & -> & _ & Hms).
  cbn. apply (outputs_Forall2 _ (fetched loads)); [done..|].
  eapply Forall_impl; [apply filter_valid_Forall|].
  intros src Hv m _. cbn in Hv. rewrite merged_key by done.
  by destruct (valid_inv src Hv) as (-> & _).
Qed.

Lemma key_stability_witness :
  run_found
  = (Return ([<["ID" := "foo2020"]> attention17; <["ID" := "bar2021"]> attention17],
             []), run_found.2)
  /\ Forall2 (fun src o => o !! "ID" = src !! "ID" /\ o !! "ID" = Some (entry_key src))
       (List.filter valid library)
       [<["ID" := "foo2020"]> attention17; <["ID" := "bar2021"]> attention17].
Proof.
  assert (H : run_found
              = (Return ([<["ID" := "foo2020"]> attention17;
                          <["ID" := "bar2021"]> attention17], []), run_found.2))
    by (vm_compute; reflexivity).
  split; [exact H|].
  exact (key_stability (net_found "@inproceedings{...}") loads_attention17
           library w0 _ _ _ H).
Defined.

(** C2 (order preservation).  A completed run outputs exactly one entry per
    source entry that has a title and a key, and the [i]-th output entry
    stands for the [i]-th such source entry. *)
Theorem order_preservation net loads es w out fk w' :
  for_entries net loads es ([], []) w = (Return (out, fk), w') ->
  length out = length (List.filter valid es)
  /\ Forall2 (stands_for loads) (List.filter valid es) out.
Proof.
  intros Hrun.
  destruct (for_entries_returns_inv net loads es _ _ _ _ _ _ Hrun)
    as (ms & Hlen & -> & _ & Hms).
  cbn. assert (HF : Forall2 (stands_for loads) (List.filter valid es)
                      (outputs (List.filter valid es) ms)).
  { apply (outputs_Forall2 _ (fetched loads)); [done..|]. apply Forall_forall.
    intros src _ [|new_entry] Hf; [by left|right; by exists new_entry]. }
  split; [|done]. symmetry. by eapply Forall2_length.
Qed.

Lemma order_preservation_witness :
  run_no_hit = (Return ([foo2020; bar2021], ["foo2020"; "bar2021"]), run_no_hit.2)
  /\ length [foo2020; bar2021] = length (List.filter valid library)
  /\ Forall2 (stands_for loads_attention17) (List.filter valid library)
       [foo2020; bar2021].
Proof.
  assert (H : run_no_hit
              = (Return ([foo2020; bar2021], ["foo2020"; "bar2021"]), run_no_hit.2))
    by (vm_compute; reflexivity).
  split; [exact H|].
  exact (order_preservation net_no_hit loads_attention17 library w0 _ _ _ H).
Defined.

(** An entry whose fields already are those of the DBLP record is replaced
    by an equal entry: the output is identical to the source, and the key
    is not in the failure list. *)
Lemma replaced_by_identical_record :
  ~ failure_iff_identical (net_found "@inproceedings{...}") loads_attention17
      [up_to_date] w0.
Proof.
  intros H.
  specialize (H [up_to_date] [] _ ltac:(vm_compute; reflexivity)
                0%nat up_to_date up_to_date eq_refl eq_refl).
  destruct H as [_ H]. specialize (H eq_refl). by apply elem_of_nil in H.
Qed.

(** C3 (failure list), amended.  In a completed run every processed entry
    was either kept or replaced by the first entry of a fetched record; the
    output and the failure list are determined by that: a kept entry comes
    out as it was and its key enters the failure list, a replaced one
    comes out as the record under the original key and its key does not.
    With distinct keys, a key is in the failure list exactly when its
    entry was kept. *)
Theorem failure_list_kept net loads es w out fk w' :
  for_entries net loads es ([], []) w = (Return (out, fk), w') ->
  exists ms,
    length ms = length (List.filter valid es)
    /\ out = outputs (List.filter valid es) ms
    /\ fk = failures (List.filter valid es) ms
    /\ Forall (fetched loads) ms
    /\ (NoDup (map entry_key (List.filter valid es)) ->
        forall i src m,
          List.filter valid es !! i = Some src ->
          ms !! i = Some m ->
          (entry_key src ∈ fk <-> m = Kept)).
Proof.
  intros Hrun.
  destruct (for_entries_returns_inv net loads es _ _ _ _ _ _ Hrun)
    as (ms & Hlen & -> & -> & Hms).
  exists ms. split_and!; [done..|].
  intros Hnd i src m Hsrc Hm. cbn. rewrite elem_of_failures. split.
  - intros (j & src' & Hsrc' & Hj & Hk).
    assert (i = j) as ->.
    { eapply NoDup_lookup; [exact Hnd| |].
      - by rewrite list_lookup_fmap, Hsrc.
      - by rewrite list_lookup_fmap, Hsrc'; cbn; rewrite Hk. }
    congruence.
  - intros ->. by exists i, src.
Qed.

Lemma failure_list_kept_witness :
  run_mixed
  = (Return ([<["ID" := "foo2020"]> attention17; bar2021], ["bar2021"]), run_mixed.2)
  /\ exists ms,
      length ms = length (List.filter valid library)
      /\ [<["ID" := "foo2020"]> attention17; bar2021]
         = outputs (List.filter valid library) ms
      /\ ["bar2021"] = failures (List.filter valid library) ms
      /\ Forall (fetched loads_attention17) ms
      /\ (NoDup (map entry_key (List.filter valid library)) ->
          forall i src m,
            List.filter valid library !! i = Some src ->
            ms !! i = Some m ->
            (entry_key src ∈ ["bar2021"] <-> m = Kept)).
Proof.
  assert (H : run_mixed
              = (Return ([<["ID" := "foo2020"]> attention17; bar2021], ["bar2021"]),
                 run_mixed.2))
    by (vm_compute; reflexivity).
  split; [exact H|].
  exact (failure_list_kept net_mixed loads_attention17 library w0 _ _ _ H).
Defined.

(** [bibtexparser.loads] is called outside any [try]: when it raises on
    the fetched record, the exception leaves the loop. *)
Lemma parse_exception_aborts :
  ~ never_aborts (net_found "@inproceedings{broken") loads_raising library w0.
Proof.
  intros (out & fk & w' & H).
  assert (Hr : (for_entries (net_found "@inproceedings{broken") loads_raising
                  library ([], []) w0).1
               = Raise (PyExn "ParseException" "Expected end of text"))
    by (vm_compute; reflexivity).
  rewrite H in Hr. discriminate.
Qed.

(** C4 (exception containment), amended.  Provided parsing does not raise
    on the non-empty records that the network serves, no behaviour of the
    network aborts the run, and for every processed entry the search
    returns and the entry ends in one of three ways.  In the two failure
    modes (the search returned [None] or an empty text; the record parsed
    to no entry) the original entry is output, its key is appended to the
    failure list, and a line is printed and logged (INFO "Keeping original
    entry", WARNING "No parsed BibTeX found").  Otherwise the first parsed
    entry is output under the original key.  In all three the loop pauses
    and goes on. *)
Theorem exception_containment net loads :
  parses_fetched net loads ->
  (forall es w, never_aborts net loads es w)
  /\ (forall entry u fk w,
        valid entry = true ->
        exists new_bibtex w1,
          search_dblp_entry net (entry_title entry) (entry_key entry) 5 2
            (announced entry w)
          = (Return new_bibtex, w1)
          /\ ((truthy_opt new_bibtex = false
               /\ loop_body net loads entry (u, fk) w
                  = (Return (u ++ [entry], fk ++ [entry_key entry]),
                     after w1 0
                       [EvPrint (msg_keeping (entry_key entry) (entry_title entry));
                        EvLog INFO (msg_keeping (entry_key entry) (entry_title entry));
                        EvSleep 1]))
              \/ (exists raw,
                    new_bibtex = Some raw /\ truthy_str raw = true
                    /\ loads raw = inr []
                    /\ loop_body net loads entry (u, fk) w
                       = (Return (u ++ [entry], fk ++ [entry_key entry]),
                          after w1 0
                            [EvPrint (msg_no_parsed (entry_key entry)
                                        (entry_title entry));
                             EvLog WARNING (msg_no_parsed (entry_key entry)
                                              (entry_title entry));
                             EvSleep 1]))
              \/ (exists raw new_entry rest,
                    new_bibtex = Some raw /\ truthy_str raw = true
                    /\ loads raw = inr (new_entry :: rest)
                    /\ loop_body net loads entry (u, fk) w
                       = (Return (u ++ [<["ID" := entry_key entry]> new_entry], fk),
                          after w1 0 [EvSleep 1])))).
Proof.
  intros Hparse. split.
  - intros es w.
    destruct (for_entries_contained net loads es ([], []) w Hparse)
      as ([out fk] & w' & H).
    by exists out, fk, w'.
  - intros entry u fk w Hv. by apply loop_body_contained.
Qed.

Lemma exception_containment_witness :
  parses_fetched (net_by_params "@inproceedings{...}") (loads_only "@inproceedings{...}")
  /\ (forall es w,
        never_aborts (net_by_params "@inproceedings{...}")
          (loads_only "@inproceedings{...}") es w)
  /\ (forall entry u fk w,
        valid entry = true ->
        exists new_bibtex w1,
          search_dblp_entry (net_by_params "@inproceedings{...}")
            (entry_title entry) (entry_key entry) 5 2 (announced entry w)
          = (Return new_bibtex, w1)
          /\ ((truthy_opt new_bibtex = false
               /\ loop_body (net_by_params "@inproceedings{...}")
                    (loads_only "@inproceedings{...}") entry (u, fk) w
                  = (Return (u ++ [entry], fk ++ [entry_key entry]),
                     after w1 0
                       [EvPrint (msg_keeping (entry_key entry) (entry_title entry));
                        EvLog INFO (msg_keeping (entry_key entry) (entry_title entry));
                        EvSleep 1]))
              \/ (exists raw,
                    new_bibtex = Some raw /\ truthy_str raw = true
                    /\ loads_only "@inproceedings{...}" raw = inr []
                    /\ loop_body (net_by_params "@inproceedings{...}")
                         (loads_only "@inproceedings{...}") entry (u, fk) w
                       = (Return (u ++ [entry], fk ++ [entry_key entry]),
                          after w1 0
                            [EvPrint (msg_no_parsed (entry_key entry)
                                        (entry_title entry));
                             EvLog WARNING (msg_no_parsed (entry_key entry)
                                              (entry_title entry));
                             EvSleep 1]))
              \/ (exists raw new_entry rest,
                    new_bibtex = Some raw /\ truthy_str raw = true
                    /\ loads_only "@inproceedings{...}" raw = inr (new_entry :: rest)
                    /\ loop_body (net_by_params "@inproceedings{...}")
                         (loads_only "@inproceedings{...}") entry (u, fk) w
                       = (Return (u ++ [<["ID" := entry_key entry]> new_entry], fk),
                          after w1 0 [EvSleep 1])))).
Proof.
  assert (H : parses_fetched (net_by_params "@inproceedings{...}")
                (loads_only "@inproceedings{...}")).
  { intros raw (i & u & r & Hnet & _ & <-) _. cbn in Hnet.
    injection Hnet as <-. exists [attention17]. reflexivity. }
  split; [exact H|].
  exact (exception_containment (net_by_params "@inproceedings{...}")
           (loads_only "@inproceedings{...}") H).
Defined.

(** C7 (malformed source entries).  An entry whose title is missing or
    empty once the braces are stripped, or whose key is missing or empty,
    leaves the accumulators and the world as they were (nothing is output,
    recorded, logged or raised), so the run is the run without it. *)
Theorem malformed_entries_skipped net loads es1 entry es2 acc w :
  entry_title entry = EmptyString
  \/ entry !! "ID" = None
  \/ entry !! "ID" = Some EmptyString ->
  loop_body net loads entry acc w = (Return acc, w)
  /\ for_entries net loads (es1 ++ entry :: es2) acc w
     = for_entries net loads (es1 ++ es2) acc w.
Proof.
  intros Hbad.
  assert (Hv : valid entry = false).
  { unfold valid. destruct Hbad as [->| [->| ->]]; [done|by rewrite andb_false_r..]. }
  split; [by apply loop_body_skip|].
  rewrite !for_entries_app. unfold bind.
  destruct (for_entries net loads es1 acc w) as [[acc1| |] w1]; [|done..].
  cbn [for_entries]. unfold bind. by rewrite loop_body_skip.
Qed.

Lemma malformed_entries_skipped_witness :
  (entry_title untitled = EmptyString
   \/ untitled !! "ID" = None
   \/ untitled !! "ID" = Some EmptyString)
  /\ loop_body net_mixed loads_attention17 untitled ([foo2020], ["foo2020"]) w0
     = (Return ([foo2020], ["foo2020"]), w0)
  /\ for_entries net_mixed loads_attention17 ([foo2020] ++ untitled :: [bar2021])
       ([], []) w0
     = for_entries net_mixed loads_attention17 ([foo2020] ++ [bar2021]) ([], []) w0.
Proof.
  assert (H : entry_title untitled = EmptyString
              \/ untitled !! "ID" = None
              \/ untitled !! "ID" = Some EmptyString)
    by (left; vm_compute; reflexivity).
  split; [exact H|].
  split.
  - exact (proj1 (malformed_entries_skipped net_mixed loads_attention17
                    [] untitled [] ([foo2020], ["foo2020"]) w0 H)).
  - exact (proj2 (malformed_entries_skipped net_mixed loads_attention17
                    [foo2020] untitled [bar2021] ([], []) w0 H)).
Defined.

(** C8 (idempotence on no-op).  When the query function returns [None]
    whatever it is asked, a run outputs the source entries that have a title
    and a key, themselves and in order (and lists all their keys as
    failures); a second run, on that output, outputs it again. *)
Theorem noop_idempotent net loads es w :
  (forall title key w, exists w',
      search_dblp_entry net title key 5 2 w = (Return None, w')) ->
  exists w1 w2,
    for_entries net loads es ([], []) w
    = (Return (List.filter has_title_and_key es,
               map entry_key (List.filter has_title_and_key es)), w1)
    /\ for_entries net loads (List.filter has_title_and_key es) ([], []) w1
       = (Return (List.filter has_title_and_key es,
                  map entry_key (List.filter has_title_and_key es)), w2).
Proof.
  intros Hnone.
  rewrite <- (List.filter_ext valid has_title_and_key valid_has_title_and_key es).
  destruct (for_entries_none net loads es [] [] w Hnone) as [w1 H1].
  destruct (for_entries_none net loads (List.filter valid es) [] [] w1 Hnone)
    as [w2 H2].
  rewrite (filter_valid_id (List.filter valid es)) in H2 by apply filter_valid_Forall.
  by exists w1, w2.
Qed.

Lemma noop_idempotent_witness :
  (forall title key w, exists w',
      search_dblp_entry net_no_hit title key 5 2 w = (Return None, w'))
  /\ exists w1 w2,
      for_entries net_no_hit loads_raising library ([], []) w0
      = (Return ([foo2020; bar2021], ["foo2020"; "bar2021"]), w1)
      /\ for_entries net_no_hit loads_raising [foo2020; bar2021] ([], []) w1
         = (Return ([foo2020; bar2021], ["foo2020"; "bar2021"]), w2).
Proof.
  assert (H : forall title key w, exists w',
             search_dblp_entry net_no_hit title key 5 2 w = (Return None, w')).
  { intros title key w. eexists.
    apply (search_dblp_entry_no_hit net_no_hit title key 5 2 w
             (resp_json no_hit_json) no_hit_json (JArr []));
      [lia|reflexivity..]. }
  split; [exact H|].
  assert (E : List.filter has_title_and_key library = [foo2020; bar2021])
    by (vm_compute; reflexivity).
  assert (K : map entry_key [foo2020; bar2021] = ["foo2020"; "bar2021"])
    by (vm_compute; reflexivity).
  pose proof (noop_idempotent net_no_hit loads_raising library w0 H) as P.
  rewrite E, K in P. exact P.
Defined.

(** C9 (empty raw record).  When the query function returns the empty
    string for a processed entry, the entry is kept and its key appended to
    the failure list; the message printed and logged is the INFO line
    "Keeping original entry", and the parser is not consulted: [merge] does
    with the empty string what it does with [None]. *)
Theorem empty_record_kept net loads entry u fk w w1 :
  valid entry = true ->
  search_dblp_entry net (entry_title entry) (entry_key entry) 5 2 (announced entry w)
  = (Return (Some EmptyString), w1) ->
  loop_body net loads entry (u, fk) w
  = (Return (u ++ [entry], fk ++ [entry_key entry]),
     after w1 0 [EvPrint (msg_keeping (entry_key entry) (entry_title entry));
                 EvLog INFO (msg_keeping (entry_key entry) (entry_title entry));
                 EvSleep 1])
  /\ merge loads entry (entry_key entry) (entry_title entry) (u, fk) (Some EmptyString)
     = merge loads entry (entry_key entry) (entry_title entry) (u, fk) None.
Proof.
  intros Hv Hs. split; [|reflexivity].
  rewrite loop_body_valid by done. unfold bind at 1. rewrite Hs.
  unfold after. cbn. by rewrite Nat.add_0_r.
Qed.

Lemma empty_record_kept_witness :
  valid foo2020 = true
  /\ search_dblp_entry (net_found EmptyString) (entry_title foo2020)
       (entry_key foo2020) 5 2 (announced foo2020 w0)
     = (Return (Some EmptyString), fetched_empty)
  /\ loop_body (net_found EmptyString) loads_raising foo2020 ([], []) w0
     = (Return ([] ++ [foo2020], [] ++ [entry_key foo2020]),
        after fetched_empty 0
          [EvPrint (msg_keeping (entry_key foo2020) (entry_title foo2020));
           EvLog INFO (msg_keeping (entry_key foo2020) (entry_title foo2020));
           EvSleep 1])
  /\ merge loads_raising foo2020 (entry_key foo2020) (entry_title foo2020) ([], [])
       (Some EmptyString)
     = merge loads_raising foo2020 (entry_key foo2020) (entry_title foo2020) ([], [])
         None.
Proof.
  assert (Hv : valid foo2020 = true) by (vm_compute; reflexivity).
  assert (Hs : search_dblp_entry (net_found EmptyString) (entry_title foo2020)
                 (entry_key foo2020) 5 2 (announced foo2020 w0)
               = (Return (Some EmptyString), fetched_empty))
    by (vm_compute; reflexivity).
  split; [exact Hv|]. split; [exact Hs|].
  exact (empty_record_kept (net_found EmptyString) loads_raising foo2020 [] [] w0
           fetched_empty Hv Hs).
Defined.

(** * Further properties of the query function *)


(** ** Properties *)

(** X1 (no exception escapes the query function).  With a delay that
    [time.sleep] accepts, [search_dblp_entry] returns, a record or [None],
    whatever the network does: requests that raise, answers that are not
    JSON or are JSON of another shape are all caught by the [try]. *)
Theorem search_never_raises net title key max_retries delay w :
  0 <= delay ->
  exists v w',
    search_dblp_entry net title key max_retries delay w = (Return v, w').
Proof. apply search_dblp_entry_returns. Qed.

Lemma search_never_raises_witness :
  0 <= 2
  /\ exists v w',
      search_dblp_entry net_down "Attention Is All You Need" "foo2020" 5 2 w0
      = (Return v, w').
Proof.
  split; [lia|].
  apply (search_never_raises net_down "Attention Is All You Need" "foo2020" 5 2 w0).
  lia.
Defined.

(** X2 (request bound).  However a call of [search_dblp_entry] ends, it
    has issued at most two requests per allowed attempt, a search and a
    fetch. *)
Theorem search_request_bound net title key max_retries delay w :
  (requests_made w
   <= requests_made (search_dblp_entry net title key max_retries delay w).2
   <= requests_made w + 2 * Z.to_nat max_retries)%nat.
Proof.
  destruct (search_effect net title key max_retries delay w)
    as (evs & -> & Hn & _). cbn. lia.
Qed.

(** X3 (what the query function does to the outside).  A call only adds to
    the trace, and what it adds is prints, log lines, sleeps, queries of
    the search endpoint with [q] the title and [format=json], and fetches
    of an address ending in [.bib]; it writes no file. *)
Theorem search_only_queries net title key max_retries delay w :
  exists evs,
    trace (search_dblp_entry net title key max_retries delay w).2
    = rev evs ++ trace w
    /\ Forall (search_event title) evs
    /\ files_written (search_dblp_entry net title key max_retries delay w).2
       = files_written w.
Proof.
  destruct (search_effect net title key max_retries delay w)
    as (evs & -> & _ & Hev & _).
  exists evs. split_and!; [done..|].
  apply files_written_after. eapply Forall_impl; [exact Hev|].
  apply search_event_no_file.
Qed.

(** X4 (where a returned record comes from).  A record that
    [search_dblp_entry] returns is the body of an answer with status 200 to
    the fetch of a [.bib] address. *)
Theorem search_record_served net title key max_retries delay w raw :
  (search_dblp_entry net title key max_retries delay w).1 = Return (Some raw) ->
  served net raw.
Proof.
  destruct (search_effect net title key max_retries delay w)
    as (evs & _ & _ & _ & _ & _ & Hs). apply Hs.
Qed.

Lemma search_record_served_witness :
  (search_dblp_entry (net_found "@inproceedings{...}") "Attention Is All You Need"
     "foo2020" 5 2 w0).1
  = Return (Some "@inproceedings{...}")
  /\ served (net_found "@inproceedings{...}") "@inproceedings{...}".
Proof.
  assert (H : (search_dblp_entry (net_found "@inproceedings{...}")
                 "Attention Is All You Need" "foo2020" 5 2 w0).1
              = Return (Some "@inproceedings{...}"))
    by (vm_compute; reflexivity).
  split; [exact H|].
  exact (search_record_served _ _ _ _ _ _ _ H).
Defined.

(** X5 (the first hit decides).  When the first search answer has status
    200 and its first hit carries a record address, and the fetch of that
    address with [.bib] appended is answered with status 200, the body of
    that answer is returned after these two requests: the other hits are
    not looked at, nothing is logged and there is no sleep. *)
Theorem search_returns_first_record net title key max_retries delay w r url r2 :
  0 < max_retries ->
  net (requests_made w) search_url (params title) = Responds r ->
  finds r url ->
  net (S (requests_made w)) (url +:+ ".bib") [] = Responds r2 ->
  status_code r2 = 200 ->
  search_dblp_entry net title key max_retries delay w
  = (Return (Some (text r2)), after w 2 (fetching_attempt title url 0)).
Proof.
  intros Hpos Hnet Hfinds Hnet2 Hst2. unfold search_dblp_entry.
  destruct (Z.to_nat max_retries) as [|fuel] eqn:Hfuel; [lia|].
  rewrite while_loop_S. cbn [attempt].
  destruct (Z.ltb_spec 0 max_retries); [|lia].
  unfold bind at 1.
  rewrite (iteration_found net title key delay 0 w r url r2 Hnet Hfinds Hnet2).
  by rewrite Hst2.
Qed.

Lemma search_returns_first_record_witness :
  0 < 5
  /\ finds (resp_json (one_hit_json rec_url)) rec_url
  /\ search_dblp_entry (net_found "@inproceedings{...}") "Attention Is All You Need"
       "foo2020" 5 2 w0
     = (Return (Some (text (resp_bib "@inproceedings{...}"))),
        after w0 2 (fetching_attempt "Attention Is All You Need" rec_url 0)).
Proof.
  assert (Hf : finds (resp_json (one_hit_json rec_url)) rec_url).
  { split; [reflexivity|]. split; [reflexivity|].
    by eexists _, _, _, _. }
  split; [lia|]. split; [exact Hf|].
  apply (search_returns_first_record (net_found "@inproceedings{...}")
           "Attention Is All You Need" "foo2020" 5 2 w0
           (resp_json (one_hit_json rec_url)) rec_url
           (resp_bib "@inproceedings{...}"));
    [lia|reflexivity|exact Hf|reflexivity|reflexivity].
Defined.

(** X6 (a request that raises is retried).  When every search request
    raises [e], [search_dblp_entry] makes [max_retries] attempts, each
    printing and logging at ERROR the attempt number and [e], then
    sleeping; it ends with the final error and [None]. *)
Theorem search_retries_exceptions net title key max_retries delay w e :
  (forall i, net i search_url (params title) = Fails e) ->
  0 <= delay ->
  search_dblp_entry net title key max_retries delay w
  = (Return None,
     after w (Z.to_nat max_retries)
       (falling_attempts (errored_attempt title key e) delay
          (Z.to_nat max_retries) 0
        ++ giving_up title key max_retries)).
Proof.
  intros Hnet Hd.
  rewrite (search_dblp_entry_falling net title key max_retries delay
             (errored_attempt title key e) 1 w); [by rewrite Nat.mul_1_r| |done].
  intros a w'. by apply iteration_errored.
Qed.

Lemma search_retries_exceptions_witness :
  (forall i, net_down i search_url (params "Attention Is All You Need")
             = Fails connection_error)
  /\ 0 <= 2
  /\ search_dblp_entry net_down "Attention Is All You Need" "foo2020" 5 2 w0
     = (Return None,
        after w0 5
          (falling_attempts
             (errored_attempt "Attention Is All You Need" "foo2020" connection_error)
             2 5 0
           ++ giving_up "Attention Is All You Need" "foo2020" 5)).
Proof.
  assert (H : forall i : nat,
             net_down i search_url (params "Attention Is All You Need")
             = Fails connection_error) by reflexivity.
  split; [exact H|]. split; [lia|].
  exact (search_retries_exceptions net_down "Attention Is All You Need" "foo2020"
           5 2 w0 connection_error H ltac:(lia)).
Defined.

(** X7 (a refused fetch is retried in silence).  When every search finds a
    record address but its fetch is answered with a status other than 200,
    every attempt makes both requests and sleeps, without any message; after
    [max_retries] attempts the final error is logged and [None] returned. *)
Theorem search_retries_refused_fetch net title key max_retries delay w r url :
  (forall i, net i search_url (params title) = Responds r) ->
  finds r url ->
  (forall i, exists r2,
      net i (url +:+ ".bib") [] = Responds r2 /\ status_code r2 <> 200) ->
  0 <= delay ->
  search_dblp_entry net title key max_retries delay w
  = (Return None,
     after w (Z.to_nat max_retries * 2)
       (falling_attempts (fetching_attempt title url) delay
          (Z.to_nat max_retries) 0
        ++ giving_up title key max_retries)).
Proof.
  intros Hnet Hfinds Hfetch Hd.
  apply search_dblp_entry_falling; [|done].
  intros a w'. destruct (Hfetch (S (requests_made w'))) as (r2 & Hr2 & Hst).
  rewrite (iteration_found net title key delay a w' r url r2 (Hnet _) Hfinds Hr2).
  by destruct (Z.eqb_spec (status_code r2) 200).
Qed.

Lemma search_retries_refused_fetch_witness :
  (forall i, net_fetch_refused i search_url (params "Attention Is All You Need")
             = Responds (resp_json (one_hit_json rec_url)))
  /\ finds (resp_json (one_hit_json rec_url)) rec_url
  /\ (forall i, exists r2,
        net_fetch_refused i (rec_url +:+ ".bib") [] = Responds r2
        /\ status_code r2 <> 200)
  /\ 0 <= 2
  /\ search_dblp_entry net_fetch_refused "Attention Is All You Need" "foo2020" 5 2 w0
     = (Return None,
        after w0 (5 * 2)
          (falling_attempts (fetching_attempt "Attention Is All You Need" rec_url)
             2 5 0
           ++ giving_up "Attention Is All You Need" "foo2020" 5)).
Proof.
  assert (H1 : forall i : nat,
             net_fetch_refused i search_url (params "Attention Is All You Need")
             = Responds (resp_json (one_hit_json rec_url))) by reflexivity.
  assert (Hf : finds (resp_json (one_hit_json rec_url)) rec_url).
  { split; [reflexivity|]. split; [reflexivity|].
    by eexists _, _, _, _. }
  assert (H2 : forall i : nat, exists r2,
             net_fetch_refused i (rec_url +:+ ".bib") [] = Responds r2
             /\ status_code r2 <> 200).
  { intros i. exists resp404. split; [reflexivity|cbn; lia]. }
  split; [exact H1|]. split; [exact Hf|]. split; [exact H2|]. split; [lia|].
  exact (search_retries_refused_fetch net_fetch_refused "Attention Is All You Need"
           "foo2020" 5 2 w0 _ rec_url H1 Hf H2 ltac:(lia)).
Defined.

(** * Further properties of the reconciler *)

Section ReconcilerEffects.

Variable net : nat -> string -> list (string * string) -> Reply.
Variable loads : string -> Exn + list Entry.

Lemma loop_body_acc entry u fk w :
  loop_body net loads entry (u, fk) w
  = appended u fk (loop_body net loads entry ([], []) w).
Proof.
  destruct (valid entry) eqn:Hv.
  - rewrite !loop_body_valid by done. unfold bind at 1 4.
    destruct (search_dblp_entry _ _ _ _ _ _) as [[nb| |] w1]; [|done..].
    unfold merge. destruct (truthy_opt nb); [|done].
    unfold bind, lift_sum.
    destruct (loads _) as [e|[|new_entry rest]]; cbn; by rewrite ?app_nil_r.
  - rewrite !loop_body_skip by done. cbn. by rewrite !app_nil_r.
Qed.

Lemma for_entries_acc es : forall u fk w,
  for_entries net loads es (u, fk) w
  = appended u fk (for_entries net loads es ([], []) w).
Proof.
  induction es as [|e es IH]; intros u fk w; cbn [for_entries].
  - cbn. by rewrite !app_nil_r.
  - unfold bind. rewrite loop_body_acc.
    destruct (loop_body net loads e ([], []) w) as [[[o f]| |] w1]; cbn; [|done..].
    rewrite (IH (u ++ o)), (IH o).
    destruct (for_entries net loads es ([], []) w1) as [[[o2 f2]| |] w2]; cbn;
      [|done..].
    by rewrite !(assoc_L (++)).
Qed.

(** After the search, a processed entry only prints, logs and sleeps. *)
Lemma loop_body_tail entry acc w :
  valid entry = true ->
  exists tail,
    (loop_body net loads entry acc w).2
    = after (search_dblp_entry net (entry_title entry) (entry_key entry) 5 2
               (announced entry w)).2 0 tail
    /\ count_gets tail = 0%nat
    /\ Forall (fun ev => is_file_event ev = false) tail
    /\ printed tail = logged tail
    /\ 0 <= slept tail <= 1.
Proof.
  intros Hv. rewrite loop_body_valid by done. unfold bind at 1.
  destruct (search_dblp_entry _ _ _ _ _ _) as [[nb| |] w1]; cbn [snd].
  2,3: exists []; by rewrite after_nothing.
  unfold bind at 1. destruct acc as [u fk].
  destruct (merge_cases loads entry u fk nb w1)
    as [(e & -> & _)|(m & lvl & msg & -> & _)].
  { exists []. by rewrite after_nothing. }
  destruct m as [|new_entry]; cbn.
  - exists [EvPrint msg; EvLog lvl msg; EvSleep 1].
    split_and!; [|done|by repeat constructor|done|done|done].
    unfold after. cbn. by rewrite !Nat.add_0_r.
  - exists [EvSleep 1]. split_and!; [|done|by repeat constructor|done|done|done].
    unfold after. cbn. by rewrite !Nat.add_0_r.
Qed.

(** What one entry, and a run, do to the world. *)
Lemma loop_body_effect entry acc w :
  exists evs,
    (loop_body net loads entry acc w).2 = after w (count_gets evs) evs
    /\ (count_gets evs <= if valid entry then 10 else 0)%nat
    /\ Forall (fun ev => is_file_event ev = false) evs
    /\ printed evs = logged evs
    /\ 0 <= slept evs <= (if valid entry then 11 else 0).
Proof.
  destruct (valid entry) eqn:Hv.
  - destruct (loop_body_tail entry acc w Hv) as (tail & -> & Hn & Htail & Hplt & Hslt).
    destruct (search_effect net (entry_title entry) (entry_key entry) 5 2
                (announced entry w)) as (evs & -> & Hevs & Hev & Hpl & Hsl & _).
    specialize (Hsl ltac:(lia)).
    unfold announced. rewrite !after_after.
    eexists. split; [|split; [|split; [|split]]].
    + f_equal. rewrite !count_gets_app, Hn. cbn. lia.
    + rewrite !count_gets_app, Hn. cbn. lia.
    + rewrite !Forall_app. split_and!; [by repeat constructor| |done].
      eapply Forall_impl; [exact Hev|]. apply search_event_no_file.
    + rewrite !printed_app, !logged_app. cbn. congruence.
    + rewrite !slept_app. cbn. cbn in Hsl. lia.
  - rewrite loop_body_skip by done. exists []. cbn.
    split_and!; [by rewrite after_nothing|done|constructor|done|done|done].
Qed.

Lemma for_entries_effect es : forall acc w,
  exists evs,
    (for_entries net loads es acc w).2 = after w (count_gets evs) evs
    /\ (count_gets evs <= 10 * length (List.filter valid es))%nat
    /\ Forall (fun ev => is_file_event ev = false) evs
    /\ printed evs = logged evs
    /\ 0 <= slept evs <= 11 * Z.of_nat (length (List.filter valid es)).
Proof.
  induction es as [|e es IH]; intros acc w; cbn [for_entries List.filter].
  - exists []. cbn.
    split_and!; [by rewrite after_nothing|done|constructor|done|done|done].
  - destruct (loop_body_effect e acc w) as (evs1 & Hw1 & Hn1 & Hev1 & Hpl1 & Hsl1).
    unfold bind. destruct (loop_body net loads e acc w) as [[acc1| |] w1];
      cbn [snd] in Hw1; subst w1.
    + destruct (IH acc1 (after w (count_gets evs1) evs1))
        as (evs2 & -> & Hn2 & Hev2 & Hpl2 & Hsl2).
      exists (evs1 ++ evs2).
      rewrite after_after, count_gets_app, printed_app, logged_app, slept_app.
      split_and!; [done| |by apply Forall_app|congruence| |];
        destruct (valid e); cbn [length]; lia.
    + exists evs1. split_and!; [done| |done|done| |];
        destruct (valid e); cbn [length]; lia.
    + exists evs1. split_and!; [done| |done|done| |];
        destruct (valid e); cbn [length]; lia.
Qed.

Lemma files_written_files w n done :
  Forall (fun ev => is_file_event ev = true) done ->
  files_written (after w n done) = rev done ++ files_written w.
Proof.
  unfold files_written, after. cbn [trace]. rewrite List.filter_app. intros Hdone.
  f_equal. induction Hdone as [|ev done Hev _ IH]; cbn; [done|].
  rewrite List.filter_app. cbn. by rewrite Hev, IH.
Qed.

Lemma output_writes_files output_file out fk :
  Forall (fun ev => is_file_event ev = true) (output_writes output_file out fk).
Proof. unfold output_writes. destruct fk; repeat constructor. Qed.

Lemma failures_sublist sources : forall ms,
  failures sources ms `sublist_of` map entry_key sources.
Proof.
  unfold failures.
  induction sources as [|src sources IH]; intros [|m ms]; cbn;
    try apply sublist_nil_l.
  destruct m; cbn; [by apply sublist_skip|by apply sublist_cons].
Qed.

Lemma split_lines_line k : forall s,
  ~ In (ascii_of_nat 10) (String.list_ascii_of_string k) ->
  split_lines ((k +:+ newline) +:+ s) = k :: split_lines s.
Proof.
  induction k as [|a k IH]; intros s Hk; [done|].
  change ((String a k +:+ newline) +:+ s) with (String a ((k +:+ newline) +:+ s)).
  cbn [split_lines]. cbn [String.list_ascii_of_string] in Hk.
  destruct (Ascii.eqb_spec a (ascii_of_nat 10)) as [->|_]; [by destruct Hk; left|].
  rewrite IH; [done|]. intros ?. apply Hk. by right.
Qed.

Lemma str_remove_chars c s :
  String.list_ascii_of_string (str_remove c s)
  = List.filter (fun a => negb (Ascii.eqb a c)) (String.list_ascii_of_string s).
Proof.
  induction s as [|a s IH]; cbn; [done|].
  destruct (Ascii.eqb a c); cbn; by rewrite IH.
Qed.

End ReconcilerEffects.

(** ** Properties *)

(** X8 (requests of a run).  However a run of the loop ends, it has issued
    at most ten requests per processed entry (five attempts, a search and a
    fetch each), and none for the entries it skips. *)
Theorem loop_request_bound net loads es acc w :
  (requests_made (for_entries net loads es acc w).2
   <= requests_made w + 10 * length (List.filter valid es))%nat.
Proof.
  destruct (for_entries_effect net loads es acc w) as (evs & -> & Hn & _).
  cbn. lia.
Qed.

(** X9 (no file is touched before the loop is over).  When the input
    cannot be loaded or an exception leaves the loop, [update_bib_file]
    does not return and has opened and written no file.  When the loop
    completes, the files are gone through in one order, each step able to
    raise and end the function there: the output file is opened, the
    entries of the loop are dumped into it, and only then, and only when
    the failure list is not empty, [failed_keys.txt] is opened and written.
    The function returns exactly when all of these steps were done. *)
Theorem update_bib_file_writes_after_loop net loads load_file open_write dump_raises
    input_file output_file w :
  let res := update_bib_file net loads load_file open_write dump_raises
               input_file output_file w in
  (exists es out fk w1 done,
      load_file input_file = inr es
      /\ for_entries net loads es ([], []) w = (Return (out, fk), w1)
      /\ files_written res.2 = rev done ++ files_written w
      /\ done `prefix_of` output_writes output_file out fk
      /\ (res.1 = Return tt <-> done = output_writes output_file out fk))
  \/ (res.1 <> Return tt
      /\ files_written res.2 = files_written w
      /\ ((exists e, load_file input_file = inl e)
          \/ (exists es,
                load_file input_file = inr es
                /\ forall acc, (for_entries net loads es ([], []) w).1 <> Return acc))).
Proof.
  intros res. subst res.
  destruct (load_file input_file) as [e|es] eqn:Hload.
  { right. unfold update_bib_file, bind at 1. rewrite Hload. cbn. eauto. }
  destruct (for_entries_effect net loads es ([], []) w) as (evs & Hw & _ & Hev & _).
  destruct (for_entries net loads es ([], []) w) as [[[out fk]| |] w1] eqn:Hrun;
    cbn [snd] in Hw; subst w1.
  - left.
    rewrite (update_bib_file_run net loads load_file open_write dump_raises
               input_file output_file es w out fk _ Hload Hrun).
    destruct (write_results_effect open_write dump_raises output_file out fk
                (after w (count_gets evs) evs)) as (done & Hw' & Hpre & Hret).
    exists es, out, fk, (after w (count_gets evs) evs), done.
    split_and!; [done|done| |done|done].
    rewrite Hw', files_written_files, (files_written_after w _ evs Hev); [done|].
    destruct Hpre as [more Hmore].
    pose proof (output_writes_files output_file out fk) as Hall.
    rewrite Hmore in Hall. by apply Forall_app in Hall as [? _].
  - right.
    rewrite (update_bib_file_raise net loads load_file open_write dump_raises
               input_file output_file es w e _ Hload Hrun).
    split_and!; [done|by apply files_written_after|].
    right. exists es. by rewrite Hrun.
  - right. unfold update_bib_file, bind. rewrite Hload. cbn. rewrite Hrun.
    split_and!; [done|exact (files_written_after w (count_gets evs) evs Hev)|].
    right. exists es. by rewrite Hrun.
Qed.

(** X10 (a run can be split).  Running the loop over one list and then,
    in the world it leaves, over a second list gives the outputs and the
    failure keys of the run over the two lists in a row. *)
Theorem for_entries_split net loads es1 es2 w out1 fk1 w1 out2 fk2 w2 :
  for_entries net loads es1 ([], []) w = (Return (out1, fk1), w1) ->
  for_entries net loads es2 ([], []) w1 = (Return (out2, fk2), w2) ->
  for_entries net loads (es1 ++ es2) ([], []) w
  = (Return (out1 ++ out2, fk1 ++ fk2), w2).
Proof.
  intros H1 H2. rewrite for_entries_app. unfold bind. rewrite H1.
  by rewrite for_entries_acc, H2.
Qed.

Lemma for_entries_split_witness :
  for_entries net_mixed loads_attention17 [foo2020; untitled] ([], []) w0
  = (Return ([<["ID" := "foo2020"]> attention17], []), after_foo2020)
  /\ for_entries net_mixed loads_attention17 [bar2021; keyless] ([], []) after_foo2020
     = (Return ([bar2021], ["bar2021"]),
        (for_entries net_mixed loads_attention17 [bar2021; keyless] ([], [])
           after_foo2020).2)
  /\ for_entries net_mixed loads_attention17
       ([foo2020; untitled] ++ [bar2021; keyless]) ([], []) w0
     = (Return ([<["ID" := "foo2020"]> attention17] ++ [bar2021], [] ++ ["bar2021"]),
        (for_entries net_mixed loads_attention17 [bar2021; keyless] ([], [])
           after_foo2020).2).
Proof.
  assert (H1 : for_entries net_mixed loads_attention17 [foo2020; untitled] ([], []) w0
               = (Return ([<["ID" := "foo2020"]> attention17], []), after_foo2020))
    by (vm_compute; reflexivity).
  assert (H2 : for_entries net_mixed loads_attention17 [bar2021; keyless] ([], [])
                 after_foo2020
               = (Return ([bar2021], ["bar2021"]),
                  (for_entries net_mixed loads_attention17 [bar2021; keyless] ([], [])
                     after_foo2020).2))
    by (vm_compute; reflexivity).
  split; [exact H1|]. split; [exact H2|].
  exact (for_entries_split net_mixed loads_attention17 _ _ _ _ _ _ _ _ _ H1 H2).
Defined.

(** X11 (the failure list is a selection of the processed keys).  In a
    completed run the failure list is a subsequence of the keys of the
    processed entries, in their order; so it is never longer than the
    output. *)
Theorem failed_keys_sublist net loads es w out fk w' :
  for_entries net loads es ([], []) w = (Return (out, fk), w') ->
  fk `sublist_of` map entry_key (List.filter valid es)
  /\ (length fk <= length out)%nat.
Proof.
  intros Hrun.
  destruct (for_entries_returns_inv net loads es _ _ _ _ _ _ Hrun)
    as (ms & Hlen & -> & -> & _).
  cbn. pose proof (failures_sublist (List.filter valid es) ms) as Hsub.
  split; [done|]. apply sublist_length in Hsub.
  unfold outputs. rewrite length_zip_with, length_map in *. lia.
Qed.

Lemma failed_keys_sublist_witness :
  run_mixed
  = (Return ([<["ID" := "foo2020"]> attention17; bar2021], ["bar2021"]), run_mixed.2)
  /\ ["bar2021"] `sublist_of` map entry_key (List.filter valid library)
  /\ (length ["bar2021"] <= length [<["ID" := "foo2020"]> attention17; bar2021])%nat.
Proof.
  assert (H : run_mixed
              = (Return ([<["ID" := "foo2020"]> attention17; bar2021], ["bar2021"]),
                 run_mixed.2))
    by (vm_compute; reflexivity).
  split; [exact H|].
  exact (failed_keys_sublist net_mixed loads_attention17 library w0 _ _ _ H).
Defined.

(** X12 (a record without entries).  When the search returns a non-empty
    text in which the parser finds no entry, the original entry is kept:
    it is appended to the output and its key to the failure list, the
    message "No parsed BibTeX found" is printed and logged at WARNING, and
    the loop pauses. *)
Theorem parsed_empty_kept net loads entry u fk w raw w1 :
  valid entry = true ->
  search_dblp_entry net (entry_title entry) (entry_key entry) 5 2 (announced entry w)
  = (Return (Some raw), w1) ->
  truthy_str raw = true ->
  loads raw = inr [] ->
  loop_body net loads entry (u, fk) w
  = (Return (u ++ [entry], fk ++ [entry_key entry]),
     after w1 0 [EvPrint (msg_no_parsed (entry_key entry) (entry_title entry));
                 EvLog WARNING (msg_no_parsed (entry_key entry) (entry_title entry));
                 EvSleep 1]).
Proof.
  intros Hv Hs Hraw Hloads. rewrite loop_body_valid by done.
  unfold bind at 1. rewrite Hs. unfold merge. cbn [truthy_opt]. rewrite Hraw.
  unfold bind, lift_sum. cbn. rewrite Hloads.
  unfold after. cbn. by rewrite Nat.add_0_r.
Qed.

Lemma parsed_empty_kept_witness :
  valid foo2020 = true
  /\ search_dblp_entry (net_found "% no entry here") (entry_title foo2020)
       (entry_key foo2020) 5 2 (announced foo2020 w0)
     = (Return (Some "% no entry here"), searched "% no entry here")
  /\ truthy_str "% no entry here" = true
  /\ loads_nothing "% no entry here" = inr []
  /\ loop_body (net_found "% no entry here") loads_nothing foo2020 ([], []) w0
     = (Return ([] ++ [foo2020], [] ++ [entry_key foo2020]),
        after (searched "% no entry here") 0
          [EvPrint (msg_no_parsed (entry_key foo2020) (entry_title foo2020));
           EvLog WARNING (msg_no_parsed (entry_key foo2020) (entry_title foo2020));
           EvSleep 1]).
Proof.
  assert (Hv : valid foo2020 = true) by (vm_compute; reflexivity).
  assert (Hs : search_dblp_entry (net_found "% no entry here") (entry_title foo2020)
                 (entry_key foo2020) 5 2 (announced foo2020 w0)
               = (Return (Some "% no entry here"), searched "% no entry here"))
    by (vm_compute; reflexivity).
  split; [exact Hv|]. split; [exact Hs|]. split; [reflexivity|]. split; [reflexivity|].
  exact (parsed_empty_kept (net_found "% no entry here") loads_nothing foo2020 [] []
           w0 _ _ Hv Hs eq_refl eq_refl).
Defined.

(** X13 (a record replaces the entry).  When the search returns a
    non-empty text in which the parser finds entries, the first of them,
    with ["ID"] set to the original key, is appended to the output; the
    other parsed entries are dropped, the failure list is left as it is,
    nothing is printed or logged, and the loop pauses. *)
Theorem record_replaces_entry net loads entry u fk w raw w1 new_entry rest :
  valid entry = true ->
  search_dblp_entry net (entry_title entry) (entry_key entry) 5 2 (announced entry w)
  = (Return (Some raw), w1) ->
  truthy_str raw = true ->
  loads raw = inr (new_entry :: rest) ->
  loop_body net loads entry (u, fk) w
  = (Return (u ++ [<["ID" := entry_key entry]> new_entry], fk),
     after w1 0 [EvSleep 1]).
Proof.
  intros Hv Hs Hraw Hloads. rewrite loop_body_valid by done.
  unfold bind at 1. rewrite Hs. unfold merge. cbn [truthy_opt]. rewrite Hraw.
  unfold bind, lift_sum. cbn. rewrite Hloads.
  unfold after. cbn. by rewrite Nat.add_0_r.
Qed.

Lemma record_replaces_entry_witness :
  valid foo2020 = true
  /\ search_dblp_entry (net_found "@inproceedings{...}") (entry_title foo2020)
       (entry_key foo2020) 5 2 (announced foo2020 w0)
     = (Return (Some "@inproceedings{...}"), searched "@inproceedings{...}")
  /\ truthy_str "@inproceedings{...}" = true
  /\ loads_attention17 "@inproceedings{...}" = inr [attention17]
  /\ loop_body (net_found "@inproceedings{...}") loads_attention17 foo2020
       ([], []) w0
     = (Return ([] ++ [<["ID" := entry_key foo2020]> attention17], []),
        after (searched "@inproceedings{...}") 0 [EvSleep 1]).
Proof.
  assert (Hv : valid foo2020 = true) by (vm_compute; reflexivity).
  assert (Hs : search_dblp_entry (net_found "@inproceedings{...}")
                 (entry_title foo2020) (entry_key foo2020) 5 2 (announced foo2020 w0)
               = (Return (Some "@inproceedings{...}"), searched "@inproceedings{...}"))
    by (vm_compute; reflexivity).
  split; [exact Hv|]. split; [exact Hs|]. split; [reflexivity|]. split; [reflexivity|].
  exact (record_replaces_entry (net_found "@inproceedings{...}") loads_attention17
           foo2020 [] [] w0 _ _ attention17 [] Hv Hs eq_refl eq_refl).
Defined.

(** X14 (a parser exception stops the run).  When the parser raises on the
    text the search returned, the exception leaves the loop at once: the
    entry is neither output nor recorded as failed, nothing is logged, the
    pause is skipped and the entries after it are not processed. *)
Theorem parse_error_stops_run net loads entry u fk w raw w1 e :
  valid entry = true ->
  search_dblp_entry net (entry_title entry) (entry_key entry) 5 2 (announced entry w)
  = (Return (Some raw), w1) ->
  truthy_str raw = true ->
  loads raw = inl e ->
  loop_body net loads entry (u, fk) w = (Raise e, w1)
  /\ forall rest, for_entries net loads (entry :: rest) (u, fk) w = (Raise e, w1).
Proof.
  intros Hv Hs Hraw Hloads.
  assert (Hbody : loop_body net loads entry (u, fk) w = (Raise e, w1)).
  { rewrite loop_body_valid by done.
    unfold bind at 1. rewrite Hs. unfold merge. cbn [truthy_opt]. rewrite Hraw.
    unfold bind, lift_sum. cbn. by rewrite Hloads. }
  split; [done|]. intros rest. cbn [for_entries]. unfold bind. by rewrite Hbody.
Qed.

Lemma parse_error_stops_run_witness :
  valid foo2020 = true
  /\ search_dblp_entry (net_found "@inproceedings{broken") (entry_title foo2020)
       (entry_key foo2020) 5 2 (announced foo2020 w0)
     = (Return (Some "@inproceedings{broken"), searched "@inproceedings{broken")
  /\ truthy_str "@inproceedings{broken" = true
  /\ loads_raising "@inproceedings{broken"
     = inl (PyExn "ParseException" "Expected end of text")
  /\ loop_body (net_found "@inproceedings{broken") loads_raising foo2020 ([], []) w0
     = (Raise (PyExn "ParseException" "Expected end of text"),
        searched "@inproceedings{broken")
  /\ forall rest,
      for_entries (net_found "@inproceedings{broken") loads_raising (foo2020 :: rest)
        ([], []) w0
      = (Raise (PyExn "ParseException" "Expected end of text"),
         searched "@inproceedings{broken").
Proof.
  assert (Hv : valid foo2020 = true) by (vm_compute; reflexivity).
  assert (Hs : search_dblp_entry (net_found "@inproceedings{broken")
                 (entry_title foo2020) (entry_key foo2020) 5 2 (announced foo2020 w0)
               = (Return (Some "@inproceedings{broken"),
                  searched "@inproceedings{broken"))
    by (vm_compute; reflexivity).
  split; [exact Hv|]. split; [exact Hs|]. split; [reflexivity|]. split; [reflexivity|].
  exact (parse_error_stops_run (net_found "@inproceedings{broken") loads_raising
           foo2020 [] [] w0 _ _ _ Hv Hs eq_refl eq_refl).
Defined.

(** X15 (the title that is searched for).  The title used for the search
    and the messages is the ["title"] field (the empty string when the
    entry has none) with every opening and closing brace removed, and
    nothing else removed or reordered. *)
Theorem entry_title_chars (entry : Entry) :
  String.list_ascii_of_string (entry_title entry)
  = List.filter (fun a => negb (Ascii.eqb a "{") && negb (Ascii.eqb a "}"))
      (String.list_ascii_of_string (default EmptyString (entry !! "title"))).
Proof.
  unfold entry_title. rewrite !str_remove_chars.
  induction (String.list_ascii_of_string _) as [|a l IH]; cbn; [done|].
  destruct (Ascii.eqb a "{"); cbn; [done|].
  destruct (Ascii.eqb a "}"); cbn; by rewrite IH.
Qed.

(** X16 (one failed key per line).  Reading the text written to
    [failed_keys.txt] back line by line gives the failure list, key by key
    and in order, as long as no key contains a newline. *)
Theorem failed_lines_read_back (keys : list string) :
  (forall k, In k keys -> ~ In (ascii_of_nat 10) (String.list_ascii_of_string k)) ->
  split_lines (failed_lines keys) = keys.
Proof.
  induction keys as [|k keys IH]; intros Hkeys; cbn [failed_lines]; [done|].
  rewrite split_lines_line by (apply Hkeys; by left).
  rewrite IH; [done|]. intros k' Hk'. apply Hkeys. by right.
Qed.

Lemma failed_lines_read_back_witness :
  (forall k, In k ["foo2020"; "bar2021"] ->
             ~ In (ascii_of_nat 10) (String.list_ascii_of_string k))
  /\ split_lines (failed_lines ["foo2020"; "bar2021"]) = ["foo2020"; "bar2021"].
Proof.
  assert (H : forall k, In k ["foo2020"; "bar2021"] ->
                        ~ In (ascii_of_nat 10) (String.list_ascii_of_string k)).
  { intros k [<-|[<-|[]]]; cbn; intros Hin;
      repeat (destruct Hin as [Hin|Hin]; [discriminate Hin|]); exact Hin. }
  split; [exact H|].
  exact (failed_lines_read_back ["foo2020"; "bar2021"] H).
Defined.

(** X17 (the program run).  When [custom_old.bib] can be loaded, parsing
    does not raise on the non-empty records that the network serves, the
    two files can be opened for writing and the output can be serialised,
    [main] completes whatever else the network does: the loop runs over
    the loaded entries, the output goes to [custom_updated.bib], the
    failure keys (if any) to [failed_keys.txt], and the completion message
    is printed and logged last. *)
Theorem main_completes net loads load_file open_write dump_raises es w :
  load_file "custom_old.bib" = inr es ->
  parses_fetched net loads ->
  (forall i, open_write i "custom_updated.bib" = None) ->
  (forall i, open_write i "failed_keys.txt" = None) ->
  (forall out, dump_raises out = None) ->
  exists out fk w1,
    for_entries net loads es ([], []) w = (Return (out, fk), w1)
    /\ main net loads load_file open_write dump_raises w
       = (Return tt,
          after w1 0 (output_writes "custom_updated.bib" out fk
                      ++ [EvPrint "更新完成！"; EvLog INFO "BibTeX 更新完成"])).
Proof.
  intros Hload Hparse Hopen Hopen' Hdump.
  destruct (for_entries_contained net loads es ([], []) w Hparse)
    as ([out fk] & w1 & Hrun).
  exists out, fk, w1. split; [done|].
  unfold main, bind at 1.
  rewrite (update_bib_file_run net loads load_file open_write dump_raises
             "custom_old.bib" "custom_updated.bib" es w out fk w1 Hload Hrun).
  rewrite (write_results_ok open_write dump_raises "custom_updated.bib" out fk w1
             Hopen Hopen' (Hdump out)).
  unfold bind, print, logging, emit. cbn [requests_made trace].
  unfold after. cbn [requests_made trace]. rewrite rev_app_distr. cbn.
  by rewrite !Nat.add_0_r.
Qed.

Lemma main_completes_witness :
  load_library "custom_old.bib" = inr library
  /\ parses_fetched (net_by_params "@inproceedings{...}")
       (loads_only "@inproceedings{...}")
  /\ (forall i, open_ok i "custom_updated.bib" = None)
  /\ (forall i, open_ok i "failed_keys.txt" = None)
  /\ (forall out, dump_ok out = None)
  /\ exists out fk w1,
      for_entries (net_by_params "@inproceedings{...}")
        (loads_only "@inproceedings{...}") library ([], []) w0
      = (Return (out, fk), w1)
      /\ main (net_by_params "@inproceedings{...}") (loads_only "@inproceedings{...}")
           load_library open_ok dump_ok w0
         = (Return tt,
            after w1 0 (output_writes "custom_updated.bib" out fk
                        ++ [EvPrint "更新完成！"; EvLog INFO "BibTeX 更新完成"])).
Proof.
  assert (H : parses_fetched (net_by_params "@inproceedings{...}")
                (loads_only "@inproceedings{...}")).
  { intros raw (i & u & r & Hnet & _ & <-) _. cbn in Hnet.
    injection Hnet as <-. exists [attention17]. reflexivity. }
  split; [reflexivity|]. split; [exact H|].
  split; [reflexivity|]. split; [reflexivity|]. split; [reflexivity|].
  exact (main_completes (net_by_params "@inproceedings{...}")
           (loads_only "@inproceedings{...}") load_library open_ok dump_ok
           library w0 eq_refl H (fun _ => eq_refl) (fun _ => eq_refl)
           (fun _ => eq_refl)).
Defined.

(** X18 (console and log agree, in the query function).  The messages
    that a call of [search_dblp_entry] prints are the messages it logs, in
    the same order. *)
Theorem search_prints_what_it_logs net title key max_retries delay w :
  exists evs,
    trace (search_dblp_entry net title key max_retries delay w).2
    = rev evs ++ trace w
    /\ printed evs = logged evs.
Proof.
  destruct (search_effect net title key max_retries delay w)
    as (evs & -> & _ & _ & Hpl & _).
  by exists evs.
Qed.

(** X19 (time slept by the query function).  With a delay that
    [time.sleep] accepts, a call of [search_dblp_entry] sleeps at most
    [delay] seconds per allowed attempt. *)
Theorem search_sleep_bound net title key max_retries delay w :
  0 <= delay ->
  exists evs,
    trace (search_dblp_entry net title key max_retries delay w).2
    = rev evs ++ trace w
    /\ 0 <= slept evs <= delay * Z.max 0 max_retries.
Proof.
  intros Hd.
  destruct (search_effect net title key max_retries delay w)
    as (evs & -> & _ & _ & _ & Hsl & _).
  exists evs. split; [done|]. specialize (Hsl Hd).
  replace (Z.max 0 max_retries) with (Z.of_nat (Z.to_nat max_retries)) by lia. done.
Qed.

Lemma search_sleep_bound_witness :
  0 <= 2
  /\ exists evs,
      trace (search_dblp_entry net404 "Attention Is All You Need" "foo2020" 5 2 w0).2
      = rev evs ++ trace w0
      /\ 0 <= slept evs <= 2 * Z.max 0 5.
Proof.
  split; [lia|].
  apply (search_sleep_bound net404 "Attention Is All You Need" "foo2020" 5 2 w0).
  lia.
Defined.

(** X20 (every log line of the loop is also printed).  However a run of
    the loop ends, the messages of its own [logging] calls are the messages
    of its [print] calls, in the same order: the script logs nothing that
    it has not printed, and prints nothing that it does not log.  (A record
    that bibtexparser sends to the root logger on its own account is no
    call of the script, and is not among these.) *)
Theorem loop_prints_what_it_logs net loads es acc w :
  exists evs,
    trace (for_entries net loads es acc w).2 = rev evs ++ trace w
    /\ printed evs = logged evs.
Proof.
  destruct (for_entries_effect net loads es acc w)
    as (evs & -> & _ & _ & Hpl & _).
  by exists evs.
Qed.

(** X21 (time slept by a run).  However a run of the loop ends, it has
    slept at most eleven seconds per processed entry: five attempts of two
    seconds and the pause of one second. *)
Theorem loop_sleep_bound net loads es acc w :
  exists evs,
    trace (for_entries net loads es acc w).2 = rev evs ++ trace w
    /\ 0 <= slept evs <= 11 * Z.of_nat (length (List.filter valid es)).
Proof.
  destruct (for_entries_effect net loads es acc w)
    as (evs & -> & _ & _ & _ & Hsl).
  by exists evs.
Qed.
